(** * Assignment Submission API: the store and its request handlers

    A shallow embedding of [app.py].  The process-wide dict
    [assignments_db] becomes an explicit state threaded through the
    handlers; [HTTPException] and the other ways a handler can stop become
    an outcome; the two impure inputs of the handlers, [uuid.uuid4()] and
    [datetime.utcnow().isoformat()], are passed in as the text they
    produced for the call. *)

From Stdlib Require Import String List ZArith QArith Bool Lia.
From Stdlib Require Import SpecFloat.
Import ListNotations.
Local Open Scope string_scope.
Local Open Scope bool_scope.

(** ** Python dicts with text keys

    A [dict] keeps its entries in insertion order: assigning to a key that
    is present replaces the value where it stands, a new key goes to the
    end, [del] takes the entry out.  [list(d.values())] reads them in that
    order. *)
Module PyDict.

Definition dict (V : Type) := list (string * V).

Section Operations.
Context {V : Type}.

(** [d.get(k)]: the value under [k], if any. *)
Fixpoint get (k : string) (d : dict V) : option V :=
  match d with
  | [] => None
  | (k', v) :: d' => if String.eqb k k' then Some v else get k d'
  end.

(** [k in d]. *)
Definition contains (k : string) (d : dict V) : bool :=
  match get k d with Some _ => true | None => false end.

(** [d[k] = v]. *)
Fixpoint setitem (k : string) (v : V) (d : dict V) : dict V :=
  match d with
  | [] => [(k, v)]
  | (k', v') :: d' =>
      if String.eqb k k' then (k', v) :: d' else (k', v') :: setitem k v d'
  end.

(** [del d[k]] on a dict that has [k]. *)
Fixpoint delitem (k : string) (d : dict V) : dict V :=
  match d with
  | [] => []
  | (k', v') :: d' =>
      if String.eqb k k' then d' else (k', v') :: delitem k d'
  end.

Definition keys (d : dict V) : list string := map fst d.

(** [list(d.values())]. *)
Definition values (d : dict V) : list V := map snd d.

(** What makes an association list a dict: no key twice. *)
Definition well_formed (d : dict V) : Prop := NoDup (keys d).

End Operations.

End PyDict.

(** ** Floats

    [grade: float] is an IEEE 754 binary64 value; [spec_float] is its
    sign/mantissa/exponent form, with both zeros, both infinities and NaN.
    Comparisons are those of [SFcompare]: anything compared with NaN is
    false. *)
Definition float := spec_float.

Definition binary64 (x : float) : bool := valid_binary 53 1024 x.

(** The constants [0] and [100] of the range test.  Python compares an
    [int] with a [float] by value, which for these two is the comparison
    with [0.0] and [100.0]. *)
Definition float_0 : float := S754_zero false.
Definition float_100 : float := S754_finite false 7036874417766400 (-46).

Definition float_le (x y : float) : bool := SFleb x y.
Definition float_lt (x y : float) : bool := SFltb x y.

(** The number a float stands for, [m * 2^e] with its sign, as a
    fraction; the infinities and NaN stand for none. *)
Definition signed (s : bool) (m : positive) : Z :=
  if s then Zneg m else Zpos m.

Definition finite_value (s : bool) (m : positive) (e : Z) : Q :=
  match e with
  | Z0 => inject_Z (signed s m)
  | Zpos p => inject_Z (signed s m * 2 ^ Zpos p)
  | Zneg p => Qmake (signed s m) (2 ^ p)
  end.

Definition float_value (x : float) : option Q :=
  match x with
  | S754_zero _ => Some 0%Q
  | S754_finite s m e => Some (finite_value s m e)
  | S754_infinity _ => None
  | S754_nan => None
  end.

(** The chained comparison [a <= x <= b], that is [a <= x and x <= b]. *)
Definition chained_le (a x b : float) : bool := float_le a x && float_le x b.

(** ** Records *)

(** The dict [assignment_data] built by [submit_assignment] (lines
    105-111) and kept in [assignments_db]: keys [id], the six keys of
    [submission.dict()], [grade] and [graded_at].  A key that holds
    Python's [None] is an [option] that is [None]. *)
Module Assignment.
Record dict := mk {
  id : string;
  student_name : string;
  student_id : string;
  assignment_type : string;
  assignment_name : string;
  submission_url : string;
  submitted_at : string;
  grade : option float;
  graded_at : option string
}.

(** [a["grade"] = g] and [a["graded_at"] = t] on such a dict. *)
Definition set_grade (g : float) (a : dict) : dict :=
  {| id := id a; student_name := student_name a;
     student_id := student_id a; assignment_type := assignment_type a;
     assignment_name := assignment_name a;
     submission_url := submission_url a; submitted_at := submitted_at a;
     grade := Some g; graded_at := graded_at a |}.

Definition set_graded_at (t : string) (a : dict) : dict :=
  {| id := id a; student_name := student_name a;
     student_id := student_id a; assignment_type := assignment_type a;
     assignment_name := assignment_name a;
     submission_url := submission_url a; submitted_at := submitted_at a;
     grade := grade a; graded_at := Some t |}.
End Assignment.

(** The fields of a submission body, as both [class AssignmentSubmission]
    statements declare them.  The body is taken after JSON decoding, with
    its five text fields present and holding text. *)
Module AssignmentSubmission.
Record fields := mk {
  student_name : string;
  student_id : string;
  assignment_type : string;
  assignment_name : string;
  submission_url : string;
  submitted_at : option string
}.
End AssignmentSubmission.

(** [class GradeSubmission]. *)
Module GradeSubmission.
Record fields := mk { grade : float }.
End GradeSubmission.

(** ** Model classes and the names they are bound to *)

(** [Literal[...]]: the value is one of the listed texts. *)
Definition Literal (allowed : list string) (v : string) : bool :=
  existsb (String.eqb v) allowed.

(** A model class, as far as the submit endpoint uses it: the check a
    body undergoes before the handler is called with it. *)
Definition model_class := AssignmentSubmission.fields -> bool.

(** Lines 34-40: [assignment_type: str], any text passes. *)
Definition AssignmentSubmission_line34 : model_class := fun _ => true.

(** Lines 42-48: [assignment_type: Literal["test", "lab"]]. *)
Definition AssignmentSubmission_line42 : model_class :=
  fun body => Literal ["test"; "lab"] (AssignmentSubmission.assignment_type body).

(** The module's namespace after both class statements have run, in the
    order of the file: the second statement rebinds the name. *)
Definition module_globals : PyDict.dict model_class :=
  PyDict.setitem "AssignmentSubmission" AssignmentSubmission_line42
    (PyDict.setitem "AssignmentSubmission" AssignmentSubmission_line34 []).

(** ** Outcomes and state *)

Inductive exception :=
| HTTPException (status_code : Z) (detail : string)
| RequestValidationError (field : string)
| KeyError (key : string)
| NameError (name : string).

Inductive outcome (A : Type) :=
| Returned (a : A)
| Raised (e : exception).
Arguments Returned {A} a.
Arguments Raised {A} e.

(** The status line the framework answers with: 200 for a return, the
    exception's own code for [HTTPException], 422 for a body or query that
    fails its model, 500 for anything uncaught. *)
Definition status_of {A : Type} (o : outcome A) : Z :=
  match o with
  | Returned _ => 200
  | Raised (HTTPException code _) => code
  | Raised (RequestValidationError _) => 422
  | Raised (KeyError _) => 500
  | Raised (NameError _) => 500
  end.

Definition client_error (code : Z) : bool := (400 <=? code)%Z && (code <? 500)%Z.

(** [assignments_db = {}] (line 31). *)
Definition assignments_db := PyDict.dict Assignment.dict.
Definition empty_db : assignments_db := [].

(** A handler body: it reads and writes [assignments_db] and either
    returns or raises.  A raise keeps whatever was written before it. *)
Definition handler (A : Type) := assignments_db -> outcome A * assignments_db.

Definition ret {A : Type} (a : A) : handler A := fun db => (Returned a, db).

Definition raise {A : Type} (e : exception) : handler A :=
  fun db => (Raised e, db).

Definition bind {A B : Type} (m : handler A) (k : A -> handler B) : handler B :=
  fun db =>
    match m db with
    | (Returned a, db') => k a db'
    | (Raised e, db') => (Raised e, db')
    end.

Notation "x <- m ;; k" := (bind m (fun x => k))
  (at level 61, m at next level, right associativity).
Notation "m ;;; k" := (bind m (fun _ => k))
  (at level 61, right associativity).

(** [k in assignments_db]. *)
Definition db_contains (k : string) : handler bool :=
  fun db => (Returned (PyDict.contains k db), db).

(** [assignments_db[k]] as an expression. *)
Definition db_getitem (k : string) : handler Assignment.dict :=
  fun db =>
    match PyDict.get k db with
    | Some a => (Returned a, db)
    | None => (Raised (KeyError k), db)
    end.

(** [assignments_db[k] = a]. *)
Definition db_setitem (k : string) (a : Assignment.dict) : handler unit :=
  fun db => (Returned tt, PyDict.setitem k a db).

(** [del assignments_db[k]]. *)
Definition db_delitem (k : string) : handler unit :=
  fun db =>
    if PyDict.contains k db then (Returned tt, PyDict.delitem k db)
    else (Raised (KeyError k), db).

(** [list(assignments_db.values())]. *)
Definition db_values : handler (list Assignment.dict) :=
  fun db => (Returned (PyDict.values db), db).

(** [assignments_db[k][field] = v]: the dict under [k] is fetched and
    written in place, so the entry keeps its key and its position. *)
Definition db_update (k : string) (write : Assignment.dict -> Assignment.dict) :
  handler unit :=
  a <- db_getitem k ;; db_setitem k (write a).

(** ** The handlers *)

(** Truth value of an [Optional[str]] in [if x:]: [None] and the empty
    text are false. *)
Definition truthy (x : option string) : bool :=
  match x with
  | None => false
  | Some s => negb (String.eqb s "")
  end.

(** [v == x] for a text [v] and an [Optional[str]] [x]. *)
Definition str_eq (v : string) (x : option string) : bool :=
  match x with
  | None => false
  | Some s => String.eqb v s
  end.

(** Lines 100-114.  [**submission.dict()] brings the body's own
    [submitted_at], which the key written after it replaces. *)
Definition submit_assignment (uuid4 utcnow : string)
    (submission : AssignmentSubmission.fields) : handler Assignment.dict :=
  let assignment_id := uuid4 in
  let submitted_at := utcnow in
  let assignment_data :=
    {| Assignment.id := assignment_id;
       Assignment.student_name := AssignmentSubmission.student_name submission;
       Assignment.student_id := AssignmentSubmission.student_id submission;
       Assignment.assignment_type :=
         AssignmentSubmission.assignment_type submission;
       Assignment.assignment_name :=
         AssignmentSubmission.assignment_name submission;
       Assignment.submission_url :=
         AssignmentSubmission.submission_url submission;
       Assignment.submitted_at := submitted_at;
       Assignment.grade := None;
       Assignment.graded_at := None |} in
  db_setitem assignment_id assignment_data ;;;
  ret assignment_data.

(** Lines 117-132. *)
Definition list_assignments (assignment_type student_id : option string) :
    handler (list Assignment.dict) :=
  results <- db_values ;;
  let results :=
    if truthy assignment_type
    then filter (fun a => str_eq (Assignment.assignment_type a) assignment_type)
           results
    else results in
  let results :=
    if truthy student_id
    then filter (fun a => str_eq (Assignment.student_id a) student_id) results
    else results in
  ret results.

(** Lines 135-139. *)
Definition get_assignment (assignment_id : string) : handler Assignment.dict :=
  present <- db_contains assignment_id ;;
  if negb present
  then raise (HTTPException 404 "Assignment not found")
  else db_getitem assignment_id.

(** Lines 142-153. *)
Definition grade_assignment (utcnow : string) (assignment_id : string)
    (grade_data : GradeSubmission.fields) : handler Assignment.dict :=
  present <- db_contains assignment_id ;;
  if negb present
  then raise (HTTPException 404 "Assignment not found")
  else
    if negb (chained_le float_0 (GradeSubmission.grade grade_data) float_100)
    then raise (HTTPException 400 "Grade must be between 0 and 100")
    else
      db_update assignment_id
        (Assignment.set_grade (GradeSubmission.grade grade_data)) ;;;
      db_update assignment_id (Assignment.set_graded_at utcnow) ;;;
      db_getitem assignment_id.

(** Lines 156-161; the returned dict is [{"message": ...}]. *)
Definition delete_assignment (assignment_id : string) : handler string :=
  present <- db_contains assignment_id ;;
  if negb present
  then raise (HTTPException 404 "Assignment not found")
  else
    db_delitem assignment_id ;;;
    ret "Assignment deleted".

(** ** The framework around the handlers *)

(** Modelled from the spec: [AssignmentResponse], the [response_model] of
    the submit, get, list and grade routes, is named by [app.py] but not
    declared in it.  The spec's record (section 3) has the nine keys of
    [assignment_data] and its routes answer with the full record, so the
    response carries the handler's dict as it is. *)
Definition AssignmentResponse (a : Assignment.dict) : Assignment.dict := a.

(** [POST /assignments/submit]: the body is checked against the class
    that the name [AssignmentSubmission] is bound to, and only a body that
    passes reaches [submit_assignment]. *)
Definition POST_assignments_submit (uuid4 utcnow : string)
    (body : AssignmentSubmission.fields) : handler Assignment.dict :=
  match PyDict.get "AssignmentSubmission" module_globals with
  | None => raise (NameError "AssignmentSubmission")
  | Some cls =>
      if cls body
      then a <- submit_assignment uuid4 utcnow body ;; ret (AssignmentResponse a)
      else raise (RequestValidationError "assignment_type")
  end.

(** [GET /assignments]: [assignment_type] is an
    [Optional[Literal["test", "lab"]]] query parameter. *)
Definition GET_assignments (assignment_type student_id : option string) :
    handler (list Assignment.dict) :=
  match assignment_type with
  | Some s =>
      if Literal ["test"; "lab"] s
      then l <- list_assignments assignment_type student_id ;;
           ret (map AssignmentResponse l)
      else raise (RequestValidationError "assignment_type")
  | None =>
      l <- list_assignments assignment_type student_id ;;
      ret (map AssignmentResponse l)
  end.

(** ** Runs of the store *)

(** One call of a store operation, with everything it takes from outside. *)
Inductive call :=
| Submit (uuid4 utcnow : string) (submission : AssignmentSubmission.fields)
| ListAll (assignment_type student_id : option string)
| Get (assignment_id : string)
| Grade (utcnow : string) (assignment_id : string)
    (grade_data : GradeSubmission.fields)
| Delete (assignment_id : string).

Inductive content :=
| One (a : Assignment.dict)
| Many (l : list Assignment.dict)
| Message (m : string).

Definition run (c : call) : handler content :=
  match c with
  | Submit uuid4 utcnow submission =>
      a <- submit_assignment uuid4 utcnow submission ;; ret (One a)
  | ListAll assignment_type student_id =>
      l <- list_assignments assignment_type student_id ;; ret (Many l)
  | Get assignment_id => a <- get_assignment assignment_id ;; ret (One a)
  | Grade utcnow assignment_id grade_data =>
      a <- grade_assignment utcnow assignment_id grade_data ;; ret (One a)
  | Delete assignment_id => m <- delete_assignment assignment_id ;; ret (Message m)
  end.

(** A call the process can receive: a grade that comes out of a JSON
    body is a binary64 value. *)
Definition valid_call (c : call) : Prop :=
  match c with
  | Grade _ _ grade_data => binary64 (GradeSubmission.grade grade_data) = true
  | _ => True
  end.

(** The stores the process can be in: the empty dict of line 31, and
    whatever a call leaves behind when it starts from such a store. *)
Inductive reachable : assignments_db -> Prop :=
| reachable_empty : reachable empty_db
| reachable_run (db : assignments_db) (c : call) :
    reachable db -> valid_call c -> reachable (snd (run c db)).

(** ** Vocabulary of the properties *)

(** A float that stands for a number between 0 and 100, both included. *)
Definition within_0_100 (g : float) : Prop :=
  exists q : Q, float_value g = Some q /\ (0 <= q)%Q /\ (q <= 100)%Q.

(** A float below [n]: minus infinity, or a number less than [n]; and a
    float above [n]. *)
Definition float_below (g : float) (n : Q) : Prop :=
  g = S754_infinity true \/ exists q : Q, float_value g = Some q /\ (q < n)%Q.

Definition float_above (g : float) (n : Q) : Prop :=
  g = S754_infinity false \/ exists q : Q, float_value g = Some q /\ (n < q)%Q.

(** [grade] is absent or within [0, 100]. *)
Definition grade_in_range (a : Assignment.dict) : Prop :=
  match Assignment.grade a with
  | None => True
  | Some g => within_0_100 g
  end.

(** [graded_at] is present exactly when [grade] is. *)
Definition graded_at_iff_grade (a : Assignment.dict) : Prop :=
  Assignment.graded_at a <> None <-> Assignment.grade a <> None.

Definition graded_well (entry : string * Assignment.dict) : Prop :=
  grade_in_range (snd entry) /\ graded_at_iff_grade (snd entry).

(** Two records that differ at most in [grade] and [graded_at]. *)
Definition same_submission (a a' : Assignment.dict) : Prop :=
  Assignment.id a' = Assignment.id a
  /\ Assignment.student_name a' = Assignment.student_name a
  /\ Assignment.student_id a' = Assignment.student_id a
  /\ Assignment.assignment_type a' = Assignment.assignment_type a
  /\ Assignment.assignment_name a' = Assignment.assignment_name a
  /\ Assignment.submission_url a' = Assignment.submission_url a
  /\ Assignment.submitted_at a' = Assignment.submitted_at a.

(** Every record sits under its own [id], and no key occurs twice. *)
Definition keyed_by_id (db : assignments_db) : Prop :=
  Forall (fun entry => Assignment.id (snd entry) = fst entry) db.

Definition coherent (db : assignments_db) : Prop :=
  PyDict.well_formed db /\ keyed_by_id db.

(** What one call can do to the store: nothing; put a record that has no
    grade yet under its own id; write an in-range grade and a stamp into a
    record that is there; take a record out. *)
Inductive effect (db : assignments_db) : assignments_db -> Prop :=
| effect_none : effect db db
| effect_created (a : Assignment.dict) :
    Assignment.grade a = None ->
    Assignment.graded_at a = None ->
    effect db (PyDict.setitem (Assignment.id a) a db)
| effect_graded (k utcnow : string) (g : float) (a : Assignment.dict) :
    PyDict.get k db = Some a ->
    chained_le float_0 g float_100 = true ->
    effect db
      (PyDict.setitem k (Assignment.set_graded_at utcnow (Assignment.set_grade g a)) db)
| effect_deleted (k : string) (a : Assignment.dict) :
    PyDict.get k db = Some a ->
    effect db (PyDict.delitem k db).

(** The record passes a filter on [assignment_type], on [student_id]. *)
Definition has_type (t : string) (a : Assignment.dict) : bool :=
  String.eqb (Assignment.assignment_type a) t.

Definition has_student (s : string) (a : Assignment.dict) : bool :=
  String.eqb (Assignment.student_id a) s.

(** ** Runs under a clock that never goes back *)

(** The clock reading a call takes, if it takes one. *)
Definition reading (c : call) : option string :=
  match c with
  | Submit _ utcnow _ => Some utcnow
  | Grade utcnow _ _ => Some utcnow
  | _ => None
  end.

(** [clock_run t db]: the store [db] has been reached while the clock
    went from reading to reading without going back, and now reads [t];
    a call that asks for the time is given the current reading. *)
Inductive clock_run : string -> assignments_db -> Prop :=
| clock_start (t : string) : clock_run t empty_db
| clock_tick (t t' : string) (db : assignments_db) :
    clock_run t db -> String.leb t t' = true -> clock_run t' db
| clock_call (t : string) (db : assignments_db) (c : call) :
    clock_run t db ->
    (forall u : string, reading c = Some u -> u = t) ->
    clock_run t (snd (run c db)).

(** No stamp of the record is later than [t], and [graded_at], when
    there, is not before [submitted_at]. *)
Definition stamped_by (t : string) (entry : string * Assignment.dict) : Prop :=
  String.leb (Assignment.submitted_at (snd entry)) t = true
  /\ forall u : string,
       Assignment.graded_at (snd entry) = Some u ->
       String.leb (Assignment.submitted_at (snd entry)) u = true
       /\ String.leb u t = true.

(** ** A small scenario

    The submission of the test suite and of the spec's scenario, the grade
    [95.0], and the store once the submission has been made. *)
Definition john_doe : AssignmentSubmission.fields :=
  AssignmentSubmission.mk "John Doe" "S12345" "lab" "Lab 1 - Docker Basics"
    "https://github.com/johndoe/lab1" None.

Definition float_95 : float := S754_finite false 6685030696878080 (-46).

Definition db_john : assignments_db :=
  snd (submit_assignment "7c9e6679" "2024-03-01T09:30:00.125000" john_doe empty_db).

Definition homework : AssignmentSubmission.fields :=
  AssignmentSubmission.mk "John Doe" "S12345" "homework" "Essay"
    "https://github.com/johndoe/essay" None.

(** ** Further vocabulary *)

(** The record passes every filter that [list_assignments] applies: a
    filter that is [None] or the empty text is not applied. *)
Definition passes (assignment_type student_id : option string)
    (a : Assignment.dict) : bool :=
  (if truthy assignment_type
   then str_eq (Assignment.assignment_type a) assignment_type else true)
  && (if truthy student_id
      then str_eq (Assignment.student_id a) student_id else true).


(** The body with another [submitted_at] of the client's. *)
Definition with_submitted_at (t : option string)
    (body : AssignmentSubmission.fields) : AssignmentSubmission.fields :=
  AssignmentSubmission.mk
    (AssignmentSubmission.student_name body)
    (AssignmentSubmission.student_id body)
    (AssignmentSubmission.assignment_type body)
    (AssignmentSubmission.assignment_name body)
    (AssignmentSubmission.submission_url body) t.

(** ** Metrics, the log and the middleware

    [REQUEST_COUNT] and [REQUEST_DURATION] are objects of the metrics
    library and [logger] one of the logging library.  They are kept as
    what the calls of [app.py] put into them: a count per label triple
    (the library holds it as a float), the observed durations in order
    (the library sorts them into buckets), and the dicts whose JSON text
    is logged. *)

Definition labels := (string * string * Z)%type.

Definition labels_eqb (x y : labels) : bool :=
  let '(m1, e1, s1) := x in
  let '(m2, e2, s2) := y in
  String.eqb m1 m2 && String.eqb e1 e2 && Z.eqb s1 s2.

Definition Counter := list (labels * N).

(** The value of the child counter of these labels. *)
Fixpoint counter_value (l : labels) (c : Counter) : N :=
  match c with
  | [] => 0%N
  | (l', n) :: c' => if labels_eqb l l' then n else counter_value l c'
  end.

(** [c.labels(...).inc()]. *)
Fixpoint counter_inc (l : labels) (c : Counter) : Counter :=
  match c with
  | [] => [(l, 1%N)]
  | (l', n) :: c' =>
      if labels_eqb l l' then (l', (n + 1)%N) :: c'
      else (l', n) :: counter_inc l c'
  end.

Definition counter_total (c : Counter) : N :=
  fold_right (fun entry acc => (snd entry + acc)%N) 0%N c.

Definition Histogram := list float.

(** [h.observe(x)]. *)
Definition observe (x : float) (h : Histogram) : Histogram := (h ++ [x])%list.

(** [round(x, ndigits)], kept as the call it is. *)
Inductive rounded := round (x : float) (ndigits : Z).

(** The dict [log_data] of lines 66-73. *)
Module LogData.
Record dict := mk {
  timestamp : string;
  request_id : string;
  method : string;
  path : string;
  status_code : Z;
  duration_ms : rounded
}.
End LogData.

(** What a response body says.  [Exposition] is the text that
    [generate_latest()] renders from the metrics as they are then. *)
Inductive body :=
| Json_record (a : Assignment.dict)
| Json_list (l : list Assignment.dict)
| Json_message (message : string)
| Json_detail (detail : string)
| Json_invalid (field : string)
| Json_root (message version : string)
| Json_health (status timestamp : string)
| Exposition (counts : Counter) (durations : Histogram).

Inductive media_type := application_json | CONTENT_TYPE_LATEST.

(** A response, with the headers that [app.py] itself sets. *)
Module Response.
Record t := mk {
  status_code : Z;
  content : body;
  media : media_type;
  headers : PyDict.dict string
}.
End Response.

(** Everything the process keeps between requests. *)
Module World.
Record t := mk {
  store : assignments_db;
  REQUEST_COUNT : Counter;
  REQUEST_DURATION : Histogram;
  logger : list LogData.dict
}.
End World.

Definition empty_world : World.t := World.mk empty_db [] [] [].

(** A route or a middleware: it works on the whole state and answers or
    lets an exception out. *)
Definition app (A : Type) := World.t -> outcome A * World.t.

(** A handler run on the store of the world; the rest is left alone. *)
Definition on_store {A : Type} (h : handler A) : app A :=
  fun w =>
    let (o, db') := h (World.store w) in
    (o, World.mk db' (World.REQUEST_COUNT w) (World.REQUEST_DURATION w)
          (World.logger w)).

(** What the framework makes of a handler's outcome: a JSON answer with
    status 200, the answer of an [HTTPException] with its own status, 422
    for a body or query that fails its model; any other exception goes on
    up through the middleware. *)
Definition respond (o : outcome body) : outcome Response.t :=
  match o with
  | Returned b => Returned (Response.mk 200 b application_json [])
  | Raised (HTTPException code detail) =>
      Returned (Response.mk code (Json_detail detail) application_json [])
  | Raised (RequestValidationError field) =>
      Returned (Response.mk 422 (Json_invalid field) application_json [])
  | Raised e => Raised e
  end.

Definition answer {A : Type} (to_body : A -> body) (h : handler A) :
    app Response.t :=
  fun w => let (o, w') := on_store h w in
           (respond match o with
                    | Returned a => Returned (to_body a)
                    | Raised e => Raised e
                    end, w').

(** Lines 84-87. *)
Definition root : body := Json_root "Assignment Submission API" "1.0.0".

(** Lines 89-92. *)
Definition health_check (utcnow : string) : body := Json_health "healthy" utcnow.

(** Lines 94-97. *)
Definition metrics : app Response.t :=
  fun w =>
    (Returned
       (Response.mk 200
          (Exposition (World.REQUEST_COUNT w) (World.REQUEST_DURATION w))
          CONTENT_TYPE_LATEST []),
     w).

(** A request that has found its route, with what the route will take
    from outside while it runs.  On the routes that have an id in their
    path, [url_path] is [request.url.path], the path as the framework
    hands it to the middleware, and [assignment_id] the id the framework
    has read out of it for the handler; how the two correspond is the
    framework's quoting and is not assumed here. *)
Inductive request :=
| get_root
| get_health (utcnow : string)
| get_metrics
| post_submit (uuid4 utcnow : string) (body : AssignmentSubmission.fields)
| get_list (assignment_type student_id : option string)
| get_one (url_path : string) (assignment_id : string)
| put_grade (url_path : string) (utcnow : string) (assignment_id : string)
    (body : GradeSubmission.fields)
| delete_one (url_path : string) (assignment_id : string).

(** [request.method], as the decorator of the route fixes it, and
    [request.url.path]. *)
Definition method (r : request) : string :=
  match r with
  | get_root | get_health _ | get_metrics | get_list _ _ | get_one _ _ => "GET"
  | post_submit _ _ _ => "POST"
  | put_grade _ _ _ _ => "PUT"
  | delete_one _ _ => "DELETE"
  end.

Definition path (r : request) : string :=
  match r with
  | get_root => "/"
  | get_health _ => "/health"
  | get_metrics => "/metrics"
  | post_submit _ _ _ => "/assignments/submit"
  | get_list _ _ => "/assignments"
  | get_one url_path _ => url_path
  | put_grade url_path _ _ _ => url_path
  | delete_one url_path _ => url_path
  end.

(** The routes of the application: what [call_next] is for this app. *)
Definition routes (r : request) : app Response.t :=
  match r with
  | get_root => fun w => (respond (Returned root), w)
  | get_health utcnow => fun w => (respond (Returned (health_check utcnow)), w)
  | get_metrics => metrics
  | post_submit uuid4 utcnow body =>
      answer Json_record (POST_assignments_submit uuid4 utcnow body)
  | get_list assignment_type student_id =>
      answer Json_list (GET_assignments assignment_type student_id)
  | get_one _ assignment_id =>
      answer Json_record
        (a <- get_assignment assignment_id ;; ret (AssignmentResponse a))
  | put_grade _ utcnow assignment_id body =>
      answer Json_record
        (a <- grade_assignment utcnow assignment_id body ;;
         ret (AssignmentResponse a))
  | delete_one _ assignment_id =>
      answer Json_message (delete_assignment assignment_id)
  end.

(** What the middleware takes from outside for one request: the uuid, the
    two readings of [time.time()] and the one of [datetime.utcnow()]. *)
Module Env.
Record t := mk {
  uuid4 : string;
  start_time : float;
  end_time : float;
  utcnow : string
}.
End Env.

Definition float_1000 : float := S754_finite false 8796093022208000 (-43).

(** Lines 55-82, for a request with this method and path.  When
    [call_next] lets an exception out, the lines after it do not run. *)
Definition log_requests (env : Env.t) (request_method request_path : string)
    (call_next : app Response.t) : app Response.t :=
  fun w =>
    let request_id := Env.uuid4 env in
    let start_time := Env.start_time env in
    match call_next w with
    | (Raised e, w') => (Raised e, w')
    | (Returned response, w') =>
        let duration := SFsub 53 1024 (Env.end_time env) start_time in
        let log_data :=
          LogData.mk (Env.utcnow env) request_id request_method request_path
            (Response.status_code response)
            (round (SFmul 53 1024 duration float_1000) 2) in
        (Returned
           (Response.mk (Response.status_code response)
              (Response.content response) (Response.media response)
              (PyDict.setitem "X-Request-ID" request_id
                 (Response.headers response))),
         World.mk (World.store w')
           (counter_inc
              (request_method, request_path, Response.status_code response)
              (World.REQUEST_COUNT w'))
           (observe duration (World.REQUEST_DURATION w'))
           (World.logger w' ++ [log_data])%list)
    end.

(** One request served by the application: the middleware around the
    routes. *)
Definition serve (env : Env.t) (r : request) : app Response.t :=
  log_requests env (method r) (path r) (routes r).

(** The world after the requests of a list, one after the other. *)
Fixpoint serve_all (rs : list (Env.t * request)) (w : World.t) : World.t :=
  match rs with
  | [] => w
  | (env, r) :: rs' => serve_all rs' (snd (serve env r w))
  end.

(** An outcome that the framework turns into an answer: a return, one of
    the two [HTTPException]s of the handlers, or a failed model. *)
Definition answerable {A : Type} (o : outcome A) : Prop :=
  match o with
  | Returned _ => True
  | Raised (HTTPException code _) => code = 404%Z \/ code = 400%Z
  | Raised (RequestValidationError _) => True
  | Raised _ => False
  end.

(** The statuses this application answers with. *)
Definition known_status (code : Z) : Prop :=
  code = 200%Z \/ code = 400%Z \/ code = 404%Z \/ code = 422%Z.

(** ** The tests of [tests/test_api.py]

    A test makes its requests through the application, middleware
    included, and stops at the first assertion that fails.  It is [true]
    when it runs to its end.  The tests import [app]: they are read with
    [AssignmentResponse] supplied as above, without which the import
    itself fails. *)

(** The keys of [response.json()] when it is an object. *)
Definition json_keys (b : body) : list string :=
  match b with
  | Json_record _ =>
      ["id"; "student_name"; "student_id"; "assignment_type";
       "assignment_name"; "submission_url"; "submitted_at"; "grade";
       "graded_at"]
  | Json_message _ => ["message"]
  | Json_detail _ => ["detail"]
  | Json_invalid _ => ["detail"]
  | Json_root _ _ => ["message"; "version"]
  | Json_health _ _ => ["status"; "timestamp"]
  | Json_list _ => []
  | Exposition _ _ => []
  end.

(** [k in response.json()]. *)
Definition json_has (k : string) (b : body) : bool :=
  existsb (String.eqb k) (json_keys b).

(** [client.get(...)] and the like: the answer, or nothing when the
    application lets an exception out, which fails the test. *)
Definition client (env : Env.t) (r : request) (w : World.t) :
    option Response.t * World.t :=
  match serve env r w with
  | (Returned response, w') => (Some response, w')
  | (Raised _, w') => (None, w')
  end.

(** Lines 10-14. *)
Definition test_root (env : Env.t) (w : World.t) : bool :=
  match client env get_root w with
  | (Some response, _) =>
      Z.eqb (Response.status_code response) 200
      && json_has "message" (Response.content response)
  | (None, _) => false
  end.

(** Lines 16-20. *)
Definition test_health_check (env : Env.t) (utcnow : string) (w : World.t) :
    bool :=
  match client env (get_health utcnow) w with
  | (Some response, _) =>
      Z.eqb (Response.status_code response) 200
      && match Response.content response with
         | Json_health status _ => String.eqb status "healthy"
         | _ => false
         end
  | (None, _) => false
  end.

(** Lines 22-37: the id of the new record when every assertion holds. *)
Definition test_submit_assignment (env : Env.t) (uuid4 utcnow : string)
    (w : World.t) : option string * World.t :=
  let assignment := john_doe in
  match client env (post_submit uuid4 utcnow assignment) w with
  | (Some response, w') =>
      if Z.eqb (Response.status_code response) 200
      then match Response.content response with
           | Json_record data =>
               if String.eqb (Assignment.student_name data) "John Doe"
                  && json_has "id" (Response.content response)
                  && json_has "submitted_at" (Response.content response)
               then (Some (Assignment.id data), w')
               else (None, w')
           | _ => (None, w')
           end
      else (None, w')
  | (None, w') => (None, w')
  end.

(** Lines 39-47. *)
Definition test_list_assignments (env1 : Env.t) (uuid4 utcnow : string)
    (env2 : Env.t) (w : World.t) : bool :=
  match test_submit_assignment env1 uuid4 utcnow w with
  | (Some _, w1) =>
      match client env2 (get_list None None) w1 with
      | (Some response, _) =>
          Z.eqb (Response.status_code response) 200
          && match Response.content response with
             | Json_list _ => true
             | _ => false
             end
      | (None, _) => false
      end
  | (None, _) => false
  end.

(** Lines 49-59. *)
Definition test_grade_assignment (env1 : Env.t) (uuid4 utcnow1 : string)
    (env2 : Env.t) (utcnow2 : string) (w : World.t) : bool :=
  match test_submit_assignment env1 uuid4 utcnow1 w with
  | (Some assignment_id, w1) =>
      let grade_data := GradeSubmission.mk float_95 in
      match client env2
              (put_grade ("/assignments/" ++ assignment_id ++ "/grade") utcnow2
                 assignment_id grade_data) w1 with
      | (Some response, _) =>
          Z.eqb (Response.status_code response) 200
          && match Response.content response with
             | Json_record data =>
                 match Assignment.grade data with
                 | Some g => SFeqb g float_95
                 | None => false
                 end
                 && json_has "graded_at" (Response.content response)
             | _ => false
             end
      | (None, _) => false
      end
  | (None, _) => false
  end.

(** Lines 61-64. *)
Definition test_get_nonexistent_assignment (env : Env.t) (w : World.t) : bool :=
  match client env (get_one "/assignments/nonexistent-id" "nonexistent-id") w with
  | (Some response, _) => Z.eqb (Response.status_code response) 404
  | (None, _) => false
  end.

(** The world of the scenario, and what a middleware run takes from
    outside: five seconds between the two readings of the clock. *)
Definition world_john : World.t := World.mk db_john [] [] [].

Definition env_john : Env.t :=
  Env.mk "f47ac10b" float_95 float_100 "2024-03-02T10:00:05".

(** * Properties *)

(** ** Dict facts *)
Module PyDictFacts.
Import PyDict.

Section Facts.
Context {V : Type}.
Implicit Types (d : dict V) (k : string) (v : V).

Lemma contains_true k d :
  contains k d = true <-> exists v, get k d = Some v.
Proof.
  unfold contains. destruct (get k d) as [v|].
  - split; [eauto | reflexivity].
  - split; [discriminate | intros [v Hv]; discriminate].
Qed.

Lemma contains_false k d : contains k d = false <-> get k d = None.
Proof.
  unfold contains. destruct (get k d); split; congruence.
Qed.

Lemma get_In k v d : get k d = Some v -> In (k, v) d.
Proof.
  induction d as [|[k' v'] d IH]; simpl; [discriminate|].
  destruct (String.eqb_spec k k') as [->|Hne]; intros H.
  - left. congruence.
  - right. auto.
Qed.

Lemma get_None k d : get k d = None <-> ~ In k (keys d).
Proof.
  induction d as [|[k' v'] d IH]; simpl.
  - tauto.
  - destruct (String.eqb_spec k k') as [->|Hne].
    + split; [discriminate | intros H; exfalso; apply H; now left].
    + rewrite IH. split; intros H; [intros [E|E]; [congruence | auto] | auto].
Qed.

Lemma In_keys k v d : In (k, v) d -> In k (keys d).
Proof. intros H. apply (in_map fst) in H. exact H. Qed.

Lemma In_get k v d : well_formed d -> In (k, v) d -> get k d = Some v.
Proof.
  unfold well_formed.
  induction d as [|[k' v'] d IH]; simpl; [tauto|].
  intros Hnd [E|Hin]; inversion Hnd as [|? ? Hnotin Hnd']; subst.
  - inversion E; subst. now rewrite String.eqb_refl.
  - destruct (String.eqb_spec k k') as [->|Hne].
    + exfalso. apply Hnotin. eapply In_keys; eauto.
    + auto.
Qed.

Lemma get_setitem_same k v d : get k (setitem k v d) = Some v.
Proof.
  induction d as [|[k' v'] d IH]; simpl.
  - now rewrite String.eqb_refl.
  - destruct (String.eqb_spec k k') as [->|Hne]; simpl.
    + now rewrite String.eqb_refl.
    + destruct (String.eqb_spec k k'); [contradiction | exact IH].
Qed.

Lemma get_setitem_other k k' v d :
  k <> k' -> get k' (setitem k v d) = get k' d.
Proof.
  intros Hne. induction d as [|[k0 v0] d IH]; simpl.
  - destruct (String.eqb_spec k' k); [congruence | reflexivity].
  - destruct (String.eqb_spec k k0) as [->|Hne0]; simpl.
    + destruct (String.eqb_spec k' k0); [congruence | reflexivity].
    + now rewrite IH.
Qed.

Lemma setitem_setitem k v1 v2 d :
  setitem k v2 (setitem k v1 d) = setitem k v2 d.
Proof.
  induction d as [|[k' v'] d IH]; simpl.
  - now rewrite String.eqb_refl.
  - destruct (String.eqb_spec k k') as [->|Hne]; simpl.
    + now rewrite String.eqb_refl.
    + destruct (String.eqb_spec k k'); [contradiction | now rewrite IH].
Qed.

Lemma keys_setitem_present k v d :
  contains k d = true -> keys (setitem k v d) = keys d.
Proof.
  unfold contains.
  induction d as [|[k' v'] d IH]; simpl; [discriminate|].
  destruct (String.eqb_spec k k') as [->|Hne]; simpl; intros H.
  - reflexivity.
  - f_equal. auto.
Qed.

Lemma setitem_absent k v d :
  contains k d = false -> setitem k v d = (d ++ [(k, v)])%list.
Proof.
  unfold contains.
  induction d as [|[k' v'] d IH]; simpl; [reflexivity|].
  destruct (String.eqb_spec k k') as [->|Hne]; simpl; intros H.
  - discriminate.
  - f_equal. auto.
Qed.

Lemma setitem_same_value k v d : get k d = Some v -> setitem k v d = d.
Proof.
  induction d as [|[k' v'] d IH]; simpl; [discriminate|].
  destruct (String.eqb_spec k k') as [->|Hne]; intros H.
  - congruence.
  - f_equal. auto.
Qed.

Lemma In_setitem k v k' v' d :
  In (k', v') (setitem k v d) -> (k' = k /\ v' = v) \/ In (k', v') d.
Proof.
  induction d as [|[k0 v0] d IH]; simpl.
  - intros [E|[]]. left. inversion E; auto.
  - destruct (String.eqb_spec k k0) as [->|Hne]; simpl.
    + intros [E|H]; [left; inversion E; auto | right; right; exact H].
    + intros [E|H]; [right; left; exact E|].
      destruct (IH H) as [?|?]; [left | right; right]; assumption.
Qed.

Lemma In_keys_setitem k v k' d :
  In k' (keys (setitem k v d)) -> k' = k \/ In k' (keys d).
Proof.
  unfold keys. intros H. apply in_map_iff in H as [[k0 v0] [E H]].
  simpl in E; subst k0. apply In_setitem in H as [[-> _]|H].
  - now left.
  - right. eapply In_keys; eauto.
Qed.

Lemma well_formed_setitem k v d :
  well_formed d -> well_formed (setitem k v d).
Proof.
  unfold well_formed.
  induction d as [|[k' v'] d IH]; simpl; intros Hnd.
  - constructor; [intros [] | constructor].
  - inversion Hnd as [|? ? Hnotin Hnd']; subst.
    destruct (String.eqb_spec k k') as [->|Hne]; simpl.
    + constructor; assumption.
    + constructor; [|auto].
      intros H. apply In_keys_setitem in H as [E|H]; [congruence | auto].
Qed.

Lemma In_delitem k k' v' d : In (k', v') (delitem k d) -> In (k', v') d.
Proof.
  induction d as [|[k0 v0] d IH]; simpl; [tauto|].
  destruct (String.eqb_spec k k0) as [->|Hne]; simpl.
  - auto.
  - intros [E|H]; [left | right]; auto.
Qed.

Lemma well_formed_delitem k d : well_formed d -> well_formed (delitem k d).
Proof.
  unfold well_formed.
  induction d as [|[k' v'] d IH]; simpl; intros Hnd; [constructor|].
  inversion Hnd as [|? ? Hnotin Hnd']; subst.
  destruct (String.eqb_spec k k') as [->|Hne]; simpl; [assumption|].
  constructor; [|auto].
  intros H. apply Hnotin. unfold keys in H.
  apply in_map_iff in H as [[k0 v0] [E H]]. simpl in E; subst k0.
  eapply In_keys, In_delitem; eauto.
Qed.

Lemma get_delitem_same k d : well_formed d -> get k (delitem k d) = None.
Proof.
  unfold well_formed.
  induction d as [|[k' v'] d IH]; simpl; intros Hnd; [reflexivity|].
  inversion Hnd as [|? ? Hnotin Hnd']; subst.
  destruct (String.eqb_spec k k') as [->|Hne]; simpl.
  - now apply get_None.
  - destruct (String.eqb_spec k k'); [contradiction | auto].
Qed.


Lemma In_values v d : In v (values d) <-> exists k, In (k, v) d.
Proof.
  unfold values. rewrite in_map_iff. split.
  - intros [[k v'] [E H]]. simpl in E; subst. eauto.
  - intros [k H]. exists (k, v). auto.
Qed.

End Facts.
End PyDictFacts.

(** ** Float comparisons *)

(** Swapping the arguments of a comparison mirrors its result; NaN stays
    unordered. *)
Lemma SFcompare_antisym (x y : float) :
  SFcompare y x = option_map CompOpp (SFcompare x y).
Proof.
  destruct x as [sx|sx| |sx mx ex], y as [sy|sy| |sy my ey]; simpl;
    try reflexivity;
    try (destruct sx; reflexivity);
    try (destruct sy; reflexivity);
    try (destruct sx, sy; reflexivity).
  destruct sx, sy; simpl; try reflexivity;
    rewrite (Z.compare_antisym ex ey);
    destruct (ex ?= ey)%Z; simpl; try reflexivity;
    pose proof (Pos.compare_antisym mx my) as E; unfold Pos.compare in E;
    rewrite E; destruct (Pos.compare_cont Eq mx my); reflexivity.
Qed.

Lemma float_lt_not_le (x y : float) :
  float_lt x y = true -> float_le y x = false.
Proof.
  unfold float_lt, float_le, SFltb, SFleb.
  rewrite (SFcompare_antisym x y).
  destruct (SFcompare x y) as [[]|]; simpl; congruence.
Qed.

Lemma float_le_total_or_nan (x y : float) :
  float_le x y = true \/ float_lt y x = true \/ SFcompare x y = None.
Proof.
  unfold float_lt, float_le, SFltb, SFleb.
  rewrite (SFcompare_antisym x y).
  destruct (SFcompare x y) as [[]|]; simpl; auto.
Qed.

(** A grade below [0] or above [100] fails the range test. *)
Lemma out_of_range (g : float) :
  float_lt g float_0 = true \/ float_lt float_100 g = true ->
  chained_le float_0 g float_100 = false.
Proof.
  unfold chained_le. intros [H|H]; apply float_lt_not_le in H; rewrite H.
  - reflexivity.
  - apply andb_false_r.
Qed.

(** The range test fails only for such a grade or for NaN. *)
Lemma rejected_grade (g : float) :
  chained_le float_0 g float_100 = false ->
  float_lt g float_0 = true \/ float_lt float_100 g = true \/ g = S754_nan.
Proof.
  unfold chained_le. intros H. apply andb_false_iff in H as [H|H].
  - destruct (float_le_total_or_nan float_0 g) as [E|[E|E]];
      [congruence | auto |].
    destruct g as [s|s| |s m e]; auto; exfalso;
      cbv [SFcompare float_0 float_100] in E; try destruct s; discriminate.
  - destruct (float_le_total_or_nan g float_100) as [E|[E|E]];
      [congruence | auto |].
    destruct g as [s|s| |s m e]; auto; exfalso;
      cbv [SFcompare float_0 float_100] in E; try destruct s; discriminate.
Qed.

(** ** Floats as numbers *)

Local Open Scope Z_scope.

Lemma digits2_pos_size (m : positive) : digits2_pos m = Pos.size m.
Proof. induction m; simpl; congruence. Qed.

(** A mantissa of [d] binary digits lies between [2^(d-1)] and [2^d]. *)
Lemma mantissa_bounds (m : positive) :
  2 ^ (Zpos (digits2_pos m) - 1) <= Zpos m < 2 ^ Zpos (digits2_pos m).
Proof.
  rewrite digits2_pos_size. split.
  - pose proof (Pos.size_le m) as H.
    assert (E : Zpos (2 ^ Pos.size m) <= Zpos (m~0)) by exact H.
    rewrite Pos2Z.inj_pow in E.
    replace (Zpos (Pos.size m)) with (Zpos (Pos.size m) - 1 + 1) in E by lia.
    rewrite Z.pow_add_r in E by lia. lia.
  - pose proof (Pos.size_gt m) as H.
    assert (E : Zpos m < Zpos (2 ^ Pos.size m)) by exact H.
    now rewrite Pos2Z.inj_pow in E.
Qed.

(** What binary64 asks of a mantissa and an exponent: 53 digits, or fewer
    at the lowest exponent. *)
Lemma binary64_finite (s : bool) (m : positive) (e : Z) :
  binary64 (S754_finite s m e) = true ->
  Z.max (Zpos (digits2_pos m) + e - 53) (-1074) = e /\ e <= 971.
Proof.
  unfold binary64, valid_binary, bounded, canonical_mantissa, fexp, emin.
  intros H. apply andb_true_iff in H as [H1 H2].
  apply Z.eqb_eq in H1. apply Z.leb_le in H2. split; [exact H1 | exact H2].
Qed.

Lemma pow2_pos (p : positive) : Zpos (2 ^ p) = 2 ^ Zpos p.
Proof. apply Pos2Z.inj_pow. Qed.

Lemma negative_value (m : positive) (e : Z) : (finite_value true m e < 0)%Q.
Proof.
  destruct e as [|p|p]; cbv [finite_value Qlt inject_Z signed Qnum Qden].
  - lia.
  - assert (0 < 2 ^ Zpos p) by (apply Z.pow_pos_nonneg; lia). nia.
  - lia.
Qed.

Lemma nonnegative_value (m : positive) (e : Z) :
  (0 <= finite_value false m e)%Q.
Proof.
  destruct e as [|p|p]; cbv [finite_value Qle inject_Z signed Qnum Qden].
  - lia.
  - assert (0 < 2 ^ Zpos p) by (apply Z.pow_pos_nonneg; lia). nia.
  - lia.
Qed.

(** Comparing two positive finite floats: by exponent, then by mantissa. *)
Lemma float_le_finite (m c : positive) (e e0 : Z) :
  float_le (S754_finite false m e) (S754_finite false c e0)
  = match e ?= e0 with
    | Lt => true
    | Gt => false
    | Eq => Z.pos m <=? Z.pos c
    end.
Proof.
  unfold float_le, SFleb, SFcompare.
  destruct (e ?= e0); reflexivity.
Qed.

(** On binary64 values, [x <= 100.0] says that the number is at most 100:
    a smaller exponent than that of [100.0] keeps the number under 64, a
    larger one takes it to 128 or more. *)
Lemma positive_value_le_100 (m : positive) (e : Z) :
  binary64 (S754_finite false m e) = true ->
  float_le (S754_finite false m e) float_100 = true
  <-> (finite_value false m e <= 100)%Q.
Proof.
  intros Hv. apply binary64_finite in Hv as [Hc _].
  pose proof (mantissa_bounds m) as [Hlo Hhi].
  unfold float_100. rewrite float_le_finite.
  destruct (Z.compare_spec e (-46)) as [He|He|He].
  - subst e. rewrite Z.leb_le.
    cbv [finite_value Qle inject_Z signed Qnum Qden]. rewrite pow2_pos.
    change (2 ^ 46) with 70368744177664. lia.
  - split; [intros _ | reflexivity].
    assert (Hd : Zpos (digits2_pos m) <= 53) by lia.
    assert (Hm : Zpos m < 2 ^ 53).
    { eapply Z.lt_le_trans; [exact Hhi|]. apply Z.pow_le_mono_r; lia. }
    destruct e as [|p|p]; try lia.
    cbv [finite_value Qle inject_Z signed Qnum Qden]. rewrite pow2_pos.
    assert (Hp : 2 ^ 47 <= 2 ^ Zpos p) by (apply Z.pow_le_mono_r; lia).
    change (2 ^ 53) with 9007199254740992 in Hm.
    change (2 ^ 47) with 140737488355328 in Hp. lia.
  - split; [discriminate | intros H; exfalso].
    assert (Hd : Zpos (digits2_pos m) = 53) by lia.
    rewrite Hd in Hlo. change (2 ^ (53 - 1)) with 4503599627370496 in Hlo.
    destruct e as [|p|p]; cbv [finite_value Qle inject_Z signed Qnum Qden] in H.
    + lia.
    + assert (0 < 2 ^ Zpos p) by (apply Z.pow_pos_nonneg; lia). nia.
    + rewrite pow2_pos in H.
      assert (Hp : 2 ^ Zpos p <= 2 ^ 45) by (apply Z.pow_le_mono_r; lia).
      change (2 ^ 45) with 35184372088832 in Hp. lia.
Qed.

Local Close Scope Z_scope.

(** The range test of [grade_assignment] accepts a binary64 value exactly
    when it stands for a number between 0 and 100. *)
Lemma range_test_exact (g : float) :
  binary64 g = true ->
  chained_le float_0 g float_100 = true <-> within_0_100 g.
Proof.
  unfold within_0_100. intros Hv. destruct g as [s|s| |s m e].
  - split; [intros _ | reflexivity].
    exists 0%Q. repeat split; cbv [Qle Qnum Qden]; lia.
  - split.
    + destruct s; discriminate.
    + intros [q [E _]]. discriminate.
  - split; [discriminate | intros [q [E _]]; discriminate].
  - destruct s.
    + split; [discriminate|]. intros [q [E [H0 _]]].
      assert (Hq : q = finite_value true m e) by (simpl in E; congruence).
      subst q. exfalso. apply (Qlt_not_le _ _ (negative_value m e) H0).
    + unfold chained_le.
      change (float_le float_0 (S754_finite false m e)) with true.
      rewrite andb_true_l. split.
      * intros H. exists (finite_value false m e).
        split; [reflexivity|]. split; [apply nonnegative_value|].
        now apply positive_value_le_100.
      * intros [q [E [_ H100]]].
        assert (Hq : q = finite_value false m e) by (simpl in E; congruence).
        subst q. now apply positive_value_le_100.
Qed.

(** It turns away a binary64 value that is below 0 or above 100. *)
Lemma range_test_rejects (g : float) :
  binary64 g = true ->
  float_below g 0 \/ float_above g 100 ->
  chained_le float_0 g float_100 = false.
Proof.
  intros Hv Hout.
  destruct (chained_le float_0 g float_100) eqn:Hg; [exfalso | reflexivity].
  apply (range_test_exact g Hv) in Hg as [q [E [H0 H100]]].
  destruct Hout as [[Hinf|[q' [E' Hlt]]]|[Hinf|[q' [E' Hlt]]]].
  - subst g. discriminate.
  - assert (q' = q) by congruence. subst q'. exact (Qlt_not_le _ _ Hlt H0).
  - subst g. discriminate.
  - assert (q' = q) by congruence. subst q'. exact (Qlt_not_le _ _ Hlt H100).
Qed.

(** The constant written [100] in the test is the number 100, and the
    grade of the scenario is 95. *)
Lemma float_100_is_100 :
  binary64 float_100 = true
  /\ exists q : Q, float_value float_100 = Some q /\ (q == 100)%Q.
Proof. split; [reflexivity|]. eexists. split; reflexivity. Qed.

Lemma float_95_is_95 :
  binary64 float_95 = true
  /\ exists q : Q, float_value float_95 = Some q /\ (q == 95)%Q.
Proof. split; [reflexivity|]. eexists. split; reflexivity. Qed.

(** ** The handlers, case by case *)

Ltac step_handler :=
  cbv beta iota delta [bind ret raise db_update db_contains db_getitem
    db_setitem db_delitem db_values PyDict.contains].

Lemma submit_assignment_eq (uuid4 utcnow : string)
    (submission : AssignmentSubmission.fields) (db : assignments_db) :
  let a :=
    Assignment.mk uuid4
      (AssignmentSubmission.student_name submission)
      (AssignmentSubmission.student_id submission)
      (AssignmentSubmission.assignment_type submission)
      (AssignmentSubmission.assignment_name submission)
      (AssignmentSubmission.submission_url submission)
      utcnow None None in
  submit_assignment uuid4 utcnow submission db
  = (Returned a, PyDict.setitem uuid4 a db).
Proof. reflexivity. Qed.

Lemma list_assignments_eq (assignment_type student_id : option string)
    (db : assignments_db) :
  exists l, list_assignments assignment_type student_id db = (Returned l, db).
Proof. unfold list_assignments. step_handler. eauto. Qed.

Lemma get_assignment_present (assignment_id : string) (a : Assignment.dict)
    (db : assignments_db) :
  PyDict.get assignment_id db = Some a ->
  get_assignment assignment_id db = (Returned a, db).
Proof.
  intros H. unfold get_assignment. step_handler.
  rewrite H; simpl. rewrite H. reflexivity.
Qed.

Lemma get_assignment_absent (assignment_id : string) (db : assignments_db) :
  PyDict.get assignment_id db = None ->
  get_assignment assignment_id db
  = (Raised (HTTPException 404 "Assignment not found"), db).
Proof.
  intros H. unfold get_assignment. step_handler.
  now rewrite H.
Qed.

Lemma grade_assignment_absent (utcnow assignment_id : string)
    (grade_data : GradeSubmission.fields) (db : assignments_db) :
  PyDict.get assignment_id db = None ->
  grade_assignment utcnow assignment_id grade_data db
  = (Raised (HTTPException 404 "Assignment not found"), db).
Proof.
  intros H. unfold grade_assignment. step_handler.
  now rewrite H.
Qed.

Lemma grade_assignment_rejected (utcnow assignment_id : string)
    (grade_data : GradeSubmission.fields) (a : Assignment.dict)
    (db : assignments_db) :
  PyDict.get assignment_id db = Some a ->
  chained_le float_0 (GradeSubmission.grade grade_data) float_100 = false ->
  grade_assignment utcnow assignment_id grade_data db
  = (Raised (HTTPException 400 "Grade must be between 0 and 100"), db).
Proof.
  intros H Hg. unfold grade_assignment. step_handler.
  rewrite H; simpl. rewrite Hg. reflexivity.
Qed.

Lemma grade_assignment_accepted (utcnow assignment_id : string)
    (grade_data : GradeSubmission.fields) (a : Assignment.dict)
    (db : assignments_db) :
  PyDict.get assignment_id db = Some a ->
  chained_le float_0 (GradeSubmission.grade grade_data) float_100 = true ->
  let a' :=
    Assignment.set_graded_at utcnow
      (Assignment.set_grade (GradeSubmission.grade grade_data) a) in
  grade_assignment utcnow assignment_id grade_data db
  = (Returned a', PyDict.setitem assignment_id a' db).
Proof.
  intros H Hg a'. unfold grade_assignment. step_handler.
  rewrite H; simpl; rewrite Hg; simpl. rewrite H; simpl.
  rewrite PyDictFacts.get_setitem_same; simpl.
  rewrite PyDictFacts.setitem_setitem.
  rewrite PyDictFacts.get_setitem_same. reflexivity.
Qed.

Lemma delete_assignment_present (assignment_id : string) (a : Assignment.dict)
    (db : assignments_db) :
  PyDict.get assignment_id db = Some a ->
  delete_assignment assignment_id db
  = (Returned "Assignment deleted", PyDict.delitem assignment_id db).
Proof.
  intros H. unfold delete_assignment. step_handler.
  rewrite H; simpl. rewrite H. reflexivity.
Qed.

Lemma delete_assignment_absent (assignment_id : string) (db : assignments_db) :
  PyDict.get assignment_id db = None ->
  delete_assignment assignment_id db
  = (Raised (HTTPException 404 "Assignment not found"), db).
Proof.
  intros H. unfold delete_assignment. step_handler.
  now rewrite H.
Qed.

(** ** What a call leaves behind *)

(** A call that returns has had one of the four effects; a call that
    raises has had none. *)
Lemma run_effect (c : call) (db : assignments_db) :
  match run c db with
  | (Returned _, db') => effect db db'
  | (Raised _, db') => db' = db
  end.
Proof.
  destruct c as [uuid4 utcnow submission | t s | k | utcnow k [g] | k];
    unfold run, bind.
  - rewrite submit_assignment_eq. simpl.
    apply (effect_created db (Assignment.mk uuid4 _ _ _ _ _ utcnow None None));
      reflexivity.
  - destruct (list_assignments_eq t s db) as [l ->]. constructor.
  - destruct (PyDict.get k db) as [a|] eqn:H.
    + rewrite (get_assignment_present _ _ _ H). constructor.
    + rewrite (get_assignment_absent _ _ H). reflexivity.
  - destruct (PyDict.get k db) as [a|] eqn:H.
    + destruct (chained_le float_0 g float_100) eqn:Hg.
      * rewrite (grade_assignment_accepted utcnow k (GradeSubmission.mk g) a db H Hg).
        now apply effect_graded.
      * rewrite (grade_assignment_rejected utcnow k (GradeSubmission.mk g) a db H Hg).
        reflexivity.
    + rewrite (grade_assignment_absent _ _ _ _ H). reflexivity.
  - destruct (PyDict.get k db) as [a|] eqn:H.
    + rewrite (delete_assignment_present _ _ _ H). now apply effect_deleted with a.
    + rewrite (delete_assignment_absent _ _ H). reflexivity.
Qed.

Lemma run_effect_snd (c : call) (db : assignments_db) :
  effect db (snd (run c db)).
Proof.
  pose proof (run_effect c db) as H.
  destruct (run c db) as [[x|e] db']; simpl; [exact H | subst; constructor].
Qed.

(** ** Invariants of the store *)

Section EntryInvariants.
Variable P : string * Assignment.dict -> Prop.

Lemma Forall_setitem (k : string) (a : Assignment.dict) (db : assignments_db) :
  Forall P db -> P (k, a) -> Forall P (PyDict.setitem k a db).
Proof.
  intros Hdb Ha. apply Forall_forall. intros [k' a'] Hin.
  apply PyDictFacts.In_setitem in Hin as [[-> ->]|Hin]; [exact Ha|].
  rewrite Forall_forall in Hdb. auto.
Qed.

Lemma Forall_delitem (k : string) (db : assignments_db) :
  Forall P db -> Forall P (PyDict.delitem k db).
Proof.
  intros Hdb. apply Forall_forall. intros [k' a'] Hin.
  apply PyDictFacts.In_delitem in Hin.
  rewrite Forall_forall in Hdb. auto.
Qed.

Lemma Forall_get (k : string) (a : Assignment.dict) (db : assignments_db) :
  Forall P db -> PyDict.get k db = Some a -> P (k, a).
Proof.
  intros Hdb H. rewrite Forall_forall in Hdb.
  apply Hdb. now apply PyDictFacts.get_In.
Qed.
End EntryInvariants.

Lemma effect_coherent (db db' : assignments_db) :
  effect db db' -> coherent db -> coherent db'.
Proof.
  intros He [Hwf Hid]. destruct He as [|a _ _|k utcnow g a Hget _|k a _].
  - now split.
  - split; [now apply PyDictFacts.well_formed_setitem|].
    now apply Forall_setitem.
  - split; [now apply PyDictFacts.well_formed_setitem|].
    apply Forall_setitem; [assumption|].
    apply (Forall_get _ _ _ _ Hid Hget).
  - split; [now apply PyDictFacts.well_formed_delitem|].
    now apply Forall_delitem.
Qed.

Lemma reachable_coherent (db : assignments_db) : reachable db -> coherent db.
Proof.
  induction 1 as [|db c _ IH _].
  - split; constructor.
  - eapply effect_coherent; [apply run_effect_snd | exact IH].
Qed.

Lemma run_graded_well (c : call) (db : assignments_db) :
  valid_call c -> Forall graded_well db -> Forall graded_well (snd (run c db)).
Proof.
  intros Hv Hdb.
  destruct c as [uuid4 utcnow submission | t s | k | utcnow k [g] | k];
    unfold run, bind.
  - rewrite submit_assignment_eq. simpl.
    apply Forall_setitem; [assumption|].
    split; unfold grade_in_range, graded_at_iff_grade; simpl; tauto.
  - destruct (list_assignments_eq t s db) as [l ->]. exact Hdb.
  - destruct (PyDict.get k db) as [a|] eqn:H.
    + rewrite (get_assignment_present _ _ _ H). exact Hdb.
    + rewrite (get_assignment_absent _ _ H). exact Hdb.
  - destruct (PyDict.get k db) as [a|] eqn:H.
    + destruct (chained_le float_0 g float_100) eqn:Hg.
      * rewrite (grade_assignment_accepted utcnow k (GradeSubmission.mk g) a db H Hg).
        simpl. apply Forall_setitem; [assumption|].
        split; unfold grade_in_range, graded_at_iff_grade; simpl.
        -- now apply range_test_exact.
        -- split; discriminate.
      * rewrite (grade_assignment_rejected utcnow k (GradeSubmission.mk g) a db H Hg).
        exact Hdb.
    + rewrite (grade_assignment_absent _ _ _ _ H). exact Hdb.
  - destruct (PyDict.get k db) as [a|] eqn:H.
    + rewrite (delete_assignment_present _ _ _ H). now apply Forall_delitem.
    + rewrite (delete_assignment_absent _ _ H). exact Hdb.
Qed.

Lemma reachable_graded_well (db : assignments_db) :
  reachable db -> Forall graded_well db.
Proof.
  induction 1 as [|db c _ IH Hv].
  - constructor.
  - now apply run_graded_well.
Qed.

(** ** Listing *)

Lemma list_assignments_run (assignment_type student_id : option string)
    (db : assignments_db) :
  list_assignments assignment_type student_id db
  = (Returned
       (let by_type :=
          if truthy assignment_type
          then filter (fun a => str_eq (Assignment.assignment_type a) assignment_type)
                 (PyDict.values db)
          else PyDict.values db in
        if truthy student_id
        then filter (fun a => str_eq (Assignment.student_id a) student_id) by_type
        else by_type),
     db).
Proof. reflexivity. Qed.

Lemma list_assignments_incl (assignment_type student_id : option string)
    (db : assignments_db) (l : list Assignment.dict) :
  fst (list_assignments assignment_type student_id db) = Returned l ->
  incl l (PyDict.values db).
Proof.
  rewrite list_assignments_run. simpl. intros E. inversion E; subst; clear E.
  intros a Ha.
  destruct (truthy student_id); [apply filter_In in Ha as [Ha _]|];
    (destruct (truthy assignment_type); [apply filter_In in Ha as [Ha _]|]);
    exact Ha.
Qed.

Lemma filter_filter {A : Type} (p q : A -> bool) (l : list A) :
  filter q (filter p l) = filter (fun x => p x && q x) l.
Proof.
  induction l as [|x l IH]; simpl; [reflexivity|].
  destruct (p x); simpl; [destruct (q x)|]; now rewrite IH.
Qed.

(** After [del], no record of the store carries the deleted id. *)
Lemma delitem_forgets (db : assignments_db) (k : string) (a : Assignment.dict) :
  coherent db -> In a (PyDict.values (PyDict.delitem k db)) ->
  Assignment.id a <> k.
Proof.
  intros [Hwf Hid] Hin E.
  apply PyDictFacts.In_values in Hin as [k' Hin].
  assert (Hk : k' = k).
  { apply PyDictFacts.In_delitem in Hin.
    unfold keyed_by_id in Hid. rewrite Forall_forall in Hid.
    specialize (Hid _ Hin). simpl in Hid. congruence. }
  subst k'.
  pose proof (PyDictFacts.get_delitem_same k db Hwf) as Hnone.
  apply PyDictFacts.get_None in Hnone. apply Hnone.
  eapply PyDictFacts.In_keys; eauto.
Qed.

(** ** The clock *)

Lemma ascii_compare_refl (c : Ascii.ascii) : Ascii.compare c c = Eq.
Proof. apply N.compare_refl. Qed.

Lemma ascii_compare_lt_trans (x y z : Ascii.ascii) :
  Ascii.compare x y = Lt -> Ascii.compare y z = Lt -> Ascii.compare x z = Lt.
Proof.
  unfold Ascii.compare. rewrite !N.compare_lt_iff. apply N.lt_trans.
Qed.

Lemma string_leb_refl (s : string) : String.leb s s = true.
Proof.
  unfold String.leb. induction s as [|c s IH]; simpl; [reflexivity|].
  now rewrite ascii_compare_refl.
Qed.

Lemma string_leb_trans (a b c : string) :
  String.leb a b = true -> String.leb b c = true -> String.leb a c = true.
Proof.
  unfold String.leb. revert b c.
  induction a as [|x a IH]; intros [|y b] [|z c]; simpl;
    try reflexivity; try discriminate.
  destruct (Ascii.compare x y) eqn:Exy; try discriminate;
    destruct (Ascii.compare y z) eqn:Eyz; try discriminate.
  - apply Ascii.compare_eq_iff in Exy, Eyz. subst.
    rewrite ascii_compare_refl. apply IH.
  - apply Ascii.compare_eq_iff in Exy. subst. now rewrite Eyz.
  - apply Ascii.compare_eq_iff in Eyz. subst. now rewrite Exy.
  - now rewrite (ascii_compare_lt_trans x y z Exy Eyz).
Qed.

Lemma stamped_by_later (t t' : string) (entry : string * Assignment.dict) :
  String.leb t t' = true -> stamped_by t entry -> stamped_by t' entry.
Proof.
  intros Ht [Hs Hg]. split.
  - eapply string_leb_trans; eauto.
  - intros u Hu. destruct (Hg u Hu) as [H1 H2]. split; [exact H1|].
    eapply string_leb_trans; eauto.
Qed.

(** Under a clock that never goes back, no record is stamped later than
    the current reading, and a graded record was graded no earlier than it
    was submitted. *)
Lemma clock_run_stamped (t : string) (db : assignments_db) :
  clock_run t db -> Forall (stamped_by t) db.
Proof.
  induction 1 as [t | t t' db _ IH Ht | t db c _ IH Hread].
  - constructor.
  - eapply Forall_impl; [|exact IH]. intros entry. now apply stamped_by_later.
  - destruct c as [uuid4 utcnow submission | ty s | k | utcnow k [g] | k];
      unfold run, bind.
    + rewrite submit_assignment_eq. simpl.
      rewrite (Hread utcnow eq_refl).
      apply Forall_setitem; [assumption|]. split; simpl.
      * apply string_leb_refl.
      * discriminate.
    + destruct (list_assignments_eq ty s db) as [l ->]. exact IH.
    + destruct (PyDict.get k db) as [a|] eqn:H.
      * rewrite (get_assignment_present _ _ _ H). exact IH.
      * rewrite (get_assignment_absent _ _ H). exact IH.
    + rewrite (Hread utcnow eq_refl).
      destruct (PyDict.get k db) as [a|] eqn:H.
      * destruct (chained_le float_0 g float_100) eqn:Hg.
        -- rewrite (grade_assignment_accepted t k (GradeSubmission.mk g) a db H Hg).
           simpl. apply Forall_setitem; [assumption|].
           destruct (Forall_get _ _ _ _ IH H) as [Hs _]. split; simpl.
           ++ exact Hs.
           ++ intros u Hu. injection Hu as <-. split; [exact Hs|].
              apply string_leb_refl.
        -- rewrite (grade_assignment_rejected t k (GradeSubmission.mk g) a db H Hg).
           exact IH.
      * rewrite (grade_assignment_absent _ _ _ _ H). exact IH.
    + destruct (PyDict.get k db) as [a|] eqn:H.
      * rewrite (delete_assignment_present _ _ _ H). now apply Forall_delitem.
      * rewrite (delete_assignment_absent _ _ H). exact IH.
Qed.

(** So the clock condition of grading holds when the call is given the
    current reading of such a clock. *)
Lemma clock_run_submitted_before (t : string) (db : assignments_db)
    (k : string) (a : Assignment.dict) :
  clock_run t db -> PyDict.get k db = Some a ->
  String.leb (Assignment.submitted_at a) t = true.
Proof.
  intros Hrun Hget.
  exact (proj1 (Forall_get _ _ _ _ (clock_run_stamped t db Hrun) Hget)).
Qed.

(** ** The scenario of the spec

    Submit, grade 95.0, get, delete, get again: 200 with no grade, 200
    with the grade and its stamp, the same record, 200, then 404. *)
Example scenario_john_doe :
  let submitted :=
    Assignment.mk "7c9e6679" "John Doe" "S12345" "lab" "Lab 1 - Docker Basics"
      "https://github.com/johndoe/lab1" "2024-03-01T09:30:00.125000" None None in
  let graded :=
    Assignment.mk "7c9e6679" "John Doe" "S12345" "lab" "Lab 1 - Docker Basics"
      "https://github.com/johndoe/lab1" "2024-03-01T09:30:00.125000"
      (Some float_95) (Some "2024-03-02T10:00:00") in
  POST_assignments_submit "7c9e6679" "2024-03-01T09:30:00.125000" john_doe
    empty_db = (Returned submitted, [("7c9e6679", submitted)])
  /\ grade_assignment "2024-03-02T10:00:00" "7c9e6679"
       (GradeSubmission.mk float_95) [("7c9e6679", submitted)]
     = (Returned graded, [("7c9e6679", graded)])
  /\ get_assignment "7c9e6679" [("7c9e6679", graded)]
     = (Returned graded, [("7c9e6679", graded)])
  /\ delete_assignment "7c9e6679" [("7c9e6679", graded)]
     = (Returned "Assignment deleted", [])
  /\ status_of (fst (get_assignment "7c9e6679" [])) = 404%Z.
Proof. repeat split. Qed.

(** ** Grading *)

(** C1, as it stands, fails in its last clause.  [grade_assignment]
    writes the clock reading it is handed and compares no stamps, so when
    the clock reads earlier at the grading than it did at the submission,
    [graded_at] comes before [submitted_at].  The store is one the process
    can be in, the id is in it and the grade is 95. *)
Lemma grade_before_submission_counterexample :
  reachable db_john
  /\ PyDict.contains "7c9e6679" db_john = true
  /\ binary64 float_95 = true
  /\ within_0_100 float_95
  /\ exists (a' : Assignment.dict) (db' : assignments_db),
       grade_assignment "2024-02-28T08:00:00" "7c9e6679"
         (GradeSubmission.mk float_95) db_john
       = (Returned a', db')
       /\ get_assignment "7c9e6679" db' = (Returned a', db')
       /\ Assignment.grade a' = Some float_95
       /\ Assignment.submitted_at a' = "2024-03-01T09:30:00.125000"
       /\ Assignment.graded_at a' = Some "2024-02-28T08:00:00"
       /\ String.leb "2024-03-01T09:30:00.125000" "2024-02-28T08:00:00" = false.
Proof.
  split.
  { exact (reachable_run empty_db
             (Submit "7c9e6679" "2024-03-01T09:30:00.125000" john_doe)
             reachable_empty I). }
  split; [reflexivity|]. split; [reflexivity|]. split.
  { eexists. split; [reflexivity|]. split; vm_compute; discriminate. }
  eexists. eexists. repeat split.
Qed.

(** C1, amended.  For an assignment id that is in the store and a grade
    [g] that stands for a number with [0 <= g <= 100], [grade_assignment]
    returns: the record it returns has [grade] equal to [g] and
    [graded_at] equal to the clock reading of the call, and
    [get_assignment] on the same id then returns that record.  Its
    [graded_at] is not before its [submitted_at] when the store has been
    reached under a clock that never went back and the call is handed the
    current reading of that clock. *)
Theorem grade_within_range_succeeds (db : assignments_db)
    (assignment_id utcnow : string) (g : float) :
  PyDict.contains assignment_id db = true ->
  binary64 g = true ->
  within_0_100 g ->
  exists (a' : Assignment.dict) (db' : assignments_db),
    grade_assignment utcnow assignment_id (GradeSubmission.mk g) db
    = (Returned a', db')
    /\ Assignment.grade a' = Some g
    /\ Assignment.graded_at a' = Some utcnow
    /\ get_assignment assignment_id db' = (Returned a', db')
    /\ (clock_run utcnow db ->
        String.leb (Assignment.submitted_at a') utcnow = true).
Proof.
  intros Hin Hv Hg.
  apply PyDictFacts.contains_true in Hin as [a Hget].
  apply (range_test_exact g Hv) in Hg.
  eexists. eexists. split.
  - apply (grade_assignment_accepted utcnow assignment_id (GradeSubmission.mk g)
             a db Hget Hg).
  - split; [reflexivity|]. split; [reflexivity|]. split.
    + apply get_assignment_present, PyDictFacts.get_setitem_same.
    + intros Hrun.
      exact (clock_run_submitted_before utcnow db assignment_id a Hrun Hget).
Qed.

Lemma grade_within_range_succeeds_witness :
  clock_run "2024-03-02T10:00:00" db_john
  /\ exists (a' : Assignment.dict) (db' : assignments_db),
       grade_assignment "2024-03-02T10:00:00" "7c9e6679"
         (GradeSubmission.mk float_95) db_john
       = (Returned a', db')
       /\ Assignment.grade a' = Some float_95
       /\ Assignment.graded_at a' = Some "2024-03-02T10:00:00"
       /\ get_assignment "7c9e6679" db' = (Returned a', db')
       /\ (clock_run "2024-03-02T10:00:00" db_john ->
           String.leb (Assignment.submitted_at a') "2024-03-02T10:00:00" = true).
Proof.
  split.
  - apply (clock_tick "2024-03-01T09:30:00.125000" "2024-03-02T10:00:00");
      [|reflexivity].
    apply (clock_call "2024-03-01T09:30:00.125000" empty_db
             (Submit "7c9e6679" "2024-03-01T09:30:00.125000" john_doe)).
    + apply clock_start.
    + intros u Hu. simpl in Hu. congruence.
  - apply (grade_within_range_succeeds db_john "7c9e6679" "2024-03-02T10:00:00"
             float_95).
    + reflexivity.
    + reflexivity.
    + eexists. split; [reflexivity|]. split; vm_compute; discriminate.
Defined.

(** C2.  For an assignment id that is in the store and a grade [g] with
    [g < 0] or [g > 100], [grade_assignment] raises the 400
    [HTTPException] and the store is what it was; and whatever the call,
    one that raises leaves the store as it found it, while one that returns
    has applied one whole effect. *)
Theorem grade_out_of_range_rejected (db : assignments_db)
    (assignment_id utcnow : string) (a : Assignment.dict) (g : float) :
  PyDict.get assignment_id db = Some a ->
  binary64 g = true ->
  float_below g 0 \/ float_above g 100 ->
  grade_assignment utcnow assignment_id (GradeSubmission.mk g) db
  = (Raised (HTTPException 400 "Grade must be between 0 and 100"), db)
  /\ client_error
       (status_of (fst (grade_assignment utcnow assignment_id
                          (GradeSubmission.mk g) db))) = true
  /\ forall (c : call) (db0 : assignments_db),
       match run c db0 with
       | (Returned _, db1) => effect db0 db1
       | (Raised _, db1) => db1 = db0
       end.
Proof.
  intros Hget Hv Hg. apply (range_test_rejects g Hv) in Hg.
  pose proof (grade_assignment_rejected utcnow assignment_id
                (GradeSubmission.mk g) a db Hget Hg) as E.
  split; [exact E|]. split.
  - rewrite E. reflexivity.
  - exact run_effect.
Qed.

Lemma grade_out_of_range_rejected_witness :
  grade_assignment "2024-03-02T10:00:00" "7c9e6679"
    (GradeSubmission.mk (SFopp float_95)) db_john
  = (Raised (HTTPException 400 "Grade must be between 0 and 100"), db_john)
  /\ client_error
       (status_of (fst (grade_assignment "2024-03-02T10:00:00" "7c9e6679"
                          (GradeSubmission.mk (SFopp float_95)) db_john))) = true
  /\ forall (c : call) (db0 : assignments_db),
       match run c db0 with
       | (Returned _, db1) => effect db0 db1
       | (Raised _, db1) => db1 = db0
       end.
Proof.
  eapply (grade_out_of_range_rejected db_john "7c9e6679" "2024-03-02T10:00:00"
            _ (SFopp float_95)).
  - reflexivity.
  - reflexivity.
  - left. right. eexists. split; reflexivity.
Defined.

(** C9.  Grading a stored assignment with an in-range grade changes
    nothing but [grade] and [graded_at] of the record under that id: its
    seven other fields are what they were, every other key holds the record
    it held, and the keys of the store and their order are the same. *)
Theorem grade_touches_only_grade (db : assignments_db)
    (assignment_id utcnow : string) (a : Assignment.dict) (g : float) :
  PyDict.get assignment_id db = Some a ->
  binary64 g = true ->
  within_0_100 g ->
  exists (a' : Assignment.dict) (db' : assignments_db),
    grade_assignment utcnow assignment_id (GradeSubmission.mk g) db
    = (Returned a', db')
    /\ PyDict.get assignment_id db' = Some a'
    /\ same_submission a a'
    /\ (forall k : string, k <> assignment_id ->
          PyDict.get k db' = PyDict.get k db)
    /\ PyDict.keys db' = PyDict.keys db.
Proof.
  intros Hget Hv Hg. apply (range_test_exact g Hv) in Hg.
  eexists. eexists. split.
  - apply (grade_assignment_accepted utcnow assignment_id (GradeSubmission.mk g)
             a db Hget Hg).
  - split; [apply PyDictFacts.get_setitem_same|].
    split; [repeat split|]. split.
    + intros k Hk. apply PyDictFacts.get_setitem_other. congruence.
    + apply PyDictFacts.keys_setitem_present.
      apply PyDictFacts.contains_true. eauto.
Qed.

Lemma grade_touches_only_grade_witness :
  exists (a' : Assignment.dict) (db' : assignments_db),
    grade_assignment "2024-03-02T10:00:00" "7c9e6679"
      (GradeSubmission.mk float_95) db_john
    = (Returned a', db')
    /\ PyDict.get "7c9e6679" db' = Some a'
    /\ same_submission
         (Assignment.mk "7c9e6679" "John Doe" "S12345" "lab"
            "Lab 1 - Docker Basics" "https://github.com/johndoe/lab1"
            "2024-03-01T09:30:00.125000" None None) a'
    /\ (forall k : string, k <> "7c9e6679" ->
          PyDict.get k db' = PyDict.get k db_john)
    /\ PyDict.keys db' = PyDict.keys db_john.
Proof.
  apply (grade_touches_only_grade db_john "7c9e6679" "2024-03-02T10:00:00"
           _ float_95).
  - reflexivity.
  - reflexivity.
  - eexists. split; [reflexivity|]. split; vm_compute; discriminate.
Defined.

(** ** Submitting *)

Lemma Literal_test_lab (v : string) :
  Literal ["test"; "lab"] v = true <-> v = "test" \/ v = "lab".
Proof.
  unfold Literal. simpl. rewrite !orb_true_iff, !String.eqb_eq.
  split; [intros [?|[?|?]]; auto; discriminate | intros [?|?]; auto].
Qed.

(** C3.  A submission whose [assignment_type] is neither ["test"] nor
    ["lab"] is turned away by the submit route with a client error (422)
    and the store is untouched, [submit_assignment] never being called;
    the class the route checks the body against is the one of lines 42-48,
    the last one bound to the name. *)
Theorem submit_rejects_other_types (uuid4 utcnow : string)
    (body : AssignmentSubmission.fields) (db : assignments_db) :
  AssignmentSubmission.assignment_type body <> "test" ->
  AssignmentSubmission.assignment_type body <> "lab" ->
  PyDict.get "AssignmentSubmission" module_globals
  = Some AssignmentSubmission_line42
  /\ POST_assignments_submit uuid4 utcnow body db
     = (Raised (RequestValidationError "assignment_type"), db)
  /\ client_error
       (status_of (fst (POST_assignments_submit uuid4 utcnow body db))) = true.
Proof.
  intros Htest Hlab.
  assert (Hcls : AssignmentSubmission_line42 body = false).
  { unfold AssignmentSubmission_line42.
    destruct (Literal ["test"; "lab"] (AssignmentSubmission.assignment_type body))
      eqn:E; [|reflexivity].
    apply Literal_test_lab in E. tauto. }
  assert (E : POST_assignments_submit uuid4 utcnow body db
              = (Raised (RequestValidationError "assignment_type"), db)).
  { unfold POST_assignments_submit.
    change (PyDict.get "AssignmentSubmission" module_globals)
      with (Some AssignmentSubmission_line42).
    cbv beta iota. now rewrite Hcls. }
  split; [reflexivity|]. split; [exact E|]. now rewrite E.
Qed.

Lemma submit_rejects_other_types_witness :
  PyDict.get "AssignmentSubmission" module_globals
  = Some AssignmentSubmission_line42
  /\ POST_assignments_submit "1b4e28ba" "2024-03-01T09:31:00" homework db_john
     = (Raised (RequestValidationError "assignment_type"), db_john)
  /\ client_error
       (status_of (fst (POST_assignments_submit "1b4e28ba" "2024-03-01T09:31:00"
                          homework db_john))) = true.
Proof.
  apply (submit_rejects_other_types "1b4e28ba" "2024-03-01T09:31:00" homework
           db_john); discriminate.
Defined.

(** C4.  A submission whose [assignment_type] is ["test"] or ["lab"] is
    always accepted: the route returns what [submit_assignment] returns,
    a record that carries the generated id, the clock reading as
    [submitted_at], the five fields of the body, no [grade] and no
    [graded_at]; that very record is in the store under the generated id,
    and no other key has changed; when the generated id is new to the
    store, the store is the old one with the record added at its end. *)
Theorem submit_creates_record (uuid4 utcnow : string)
    (body : AssignmentSubmission.fields) (db : assignments_db) :
  AssignmentSubmission.assignment_type body = "test"
  \/ AssignmentSubmission.assignment_type body = "lab" ->
  exists (a : Assignment.dict) (db' : assignments_db),
    POST_assignments_submit uuid4 utcnow body db = (Returned a, db')
    /\ submit_assignment uuid4 utcnow body db = (Returned a, db')
    /\ a = Assignment.mk uuid4
             (AssignmentSubmission.student_name body)
             (AssignmentSubmission.student_id body)
             (AssignmentSubmission.assignment_type body)
             (AssignmentSubmission.assignment_name body)
             (AssignmentSubmission.submission_url body)
             utcnow None None
    /\ PyDict.get uuid4 db' = Some a
    /\ get_assignment uuid4 db' = (Returned a, db')
    /\ (forall k : string, k <> uuid4 -> PyDict.get k db' = PyDict.get k db)
    /\ (PyDict.contains uuid4 db = false -> db' = (db ++ [(uuid4, a)])%list).
Proof.
  intros Htype. apply Literal_test_lab in Htype.
  eexists. eexists. split; [|split; [apply submit_assignment_eq|]].
  - unfold POST_assignments_submit.
    change (PyDict.get "AssignmentSubmission" module_globals)
      with (Some AssignmentSubmission_line42).
    cbv beta iota. unfold AssignmentSubmission_line42. rewrite Htype.
    unfold bind. rewrite submit_assignment_eq. reflexivity.
  - split; [reflexivity|]. split; [apply PyDictFacts.get_setitem_same|]. split.
    + apply get_assignment_present, PyDictFacts.get_setitem_same.
    + split.
      * intros k Hk. apply PyDictFacts.get_setitem_other. congruence.
      * apply PyDictFacts.setitem_absent.
Qed.

Lemma submit_creates_record_witness :
  exists (a : Assignment.dict) (db' : assignments_db),
    POST_assignments_submit "7c9e6679" "2024-03-01T09:30:00.125000" john_doe
      empty_db = (Returned a, db')
    /\ submit_assignment "7c9e6679" "2024-03-01T09:30:00.125000" john_doe
         empty_db = (Returned a, db')
    /\ a = Assignment.mk "7c9e6679" "John Doe" "S12345" "lab"
             "Lab 1 - Docker Basics" "https://github.com/johndoe/lab1"
             "2024-03-01T09:30:00.125000" None None
    /\ PyDict.get "7c9e6679" db' = Some a
    /\ get_assignment "7c9e6679" db' = (Returned a, db')
    /\ (forall k : string, k <> "7c9e6679" ->
          PyDict.get k db' = PyDict.get k empty_db)
    /\ (PyDict.contains "7c9e6679" empty_db = false ->
        db' = (empty_db ++ [("7c9e6679", a)])%list).
Proof.
  apply (submit_creates_record "7c9e6679" "2024-03-01T09:30:00.125000" john_doe
           empty_db).
  right. reflexivity.
Defined.

(** ** Ids that are not there, and deleting *)

(** C5.  For an id that is not in the store, [get_assignment],
    [grade_assignment] (whatever the grade and the time) and
    [delete_assignment] each raise the 404 [HTTPException] and hand back
    the store they were given, entry for entry. *)
Theorem absent_id_not_found (db : assignments_db) (assignment_id : string) :
  PyDict.contains assignment_id db = false ->
  get_assignment assignment_id db
  = (Raised (HTTPException 404 "Assignment not found"), db)
  /\ (forall (utcnow : string) (grade_data : GradeSubmission.fields),
        grade_assignment utcnow assignment_id grade_data db
        = (Raised (HTTPException 404 "Assignment not found"), db))
  /\ delete_assignment assignment_id db
     = (Raised (HTTPException 404 "Assignment not found"), db).
Proof.
  intros H. apply PyDictFacts.contains_false in H. split; [|split].
  - now apply get_assignment_absent.
  - intros utcnow grade_data. now apply grade_assignment_absent.
  - now apply delete_assignment_absent.
Qed.

Lemma absent_id_not_found_witness :
  get_assignment "nonexistent-id" db_john
  = (Raised (HTTPException 404 "Assignment not found"), db_john)
  /\ (forall (utcnow : string) (grade_data : GradeSubmission.fields),
        grade_assignment utcnow "nonexistent-id" grade_data db_john
        = (Raised (HTTPException 404 "Assignment not found"), db_john))
  /\ delete_assignment "nonexistent-id" db_john
     = (Raised (HTTPException 404 "Assignment not found"), db_john).
Proof.
  apply (absent_id_not_found db_john "nonexistent-id"). reflexivity.
Defined.

(** C6.  In a store the process can be in, deleting an id that is there
    succeeds; in the store it leaves, [get_assignment] on that id raises
    the 404 [HTTPException], and [list_assignments], whatever the filters,
    returns no record with that id. *)
Theorem delete_removes_record (db : assignments_db) (assignment_id : string) :
  reachable db ->
  PyDict.contains assignment_id db = true ->
  exists db' : assignments_db,
    delete_assignment assignment_id db = (Returned "Assignment deleted", db')
    /\ get_assignment assignment_id db'
       = (Raised (HTTPException 404 "Assignment not found"), db')
    /\ forall (assignment_type student_id : option string)
         (l : list Assignment.dict),
         fst (list_assignments assignment_type student_id db') = Returned l ->
         forall a : Assignment.dict, In a l -> Assignment.id a <> assignment_id.
Proof.
  intros Hreach Hin. apply reachable_coherent in Hreach.
  apply PyDictFacts.contains_true in Hin as [a Hget].
  exists (PyDict.delitem assignment_id db). split; [|split].
  - now apply delete_assignment_present with a.
  - apply get_assignment_absent, PyDictFacts.get_delitem_same, Hreach.
  - intros t s l Hl r Hr. apply (delitem_forgets db); [exact Hreach|].
    eapply list_assignments_incl; eauto.
Qed.

Lemma delete_removes_record_witness :
  exists db' : assignments_db,
    delete_assignment "7c9e6679" db_john = (Returned "Assignment deleted", db')
    /\ get_assignment "7c9e6679" db'
       = (Raised (HTTPException 404 "Assignment not found"), db')
    /\ forall (assignment_type student_id : option string)
         (l : list Assignment.dict),
         fst (list_assignments assignment_type student_id db') = Returned l ->
         forall a : Assignment.dict, In a l -> Assignment.id a <> "7c9e6679".
Proof.
  apply (delete_removes_record db_john "7c9e6679").
  - exact (reachable_run empty_db
             (Submit "7c9e6679" "2024-03-01T09:30:00.125000" john_doe)
             reachable_empty I).
  - reflexivity.
Defined.

(** ** Listing with filters *)

Lemma truthy_nonempty (s : string) : s <> "" -> truthy (Some s) = true.
Proof.
  intros H. simpl. destruct (String.eqb_spec s ""); [contradiction | reflexivity].
Qed.

(** C7, as it stands, fails when the [student_id] that is supplied is the
    empty text: the store holds one lab record, of student ["S12345"];
    asked for type ["lab"] and student [""], [list_assignments] returns
    that record, though no record matches both filters. *)
Lemma list_both_filters_counterexample :
  fst (list_assignments (Some "lab") (Some "") db_john)
  = Returned (PyDict.values db_john)
  /\ filter (fun a => has_type "lab" a && has_student "" a)
       (PyDict.values db_john) = []
  /\ fst (list_assignments (Some "lab") (Some "") db_john)
     <> Returned
          (filter (fun a => has_type "lab" a && has_student "" a)
             (PyDict.values db_john)).
Proof.
  split; [reflexivity|]. split; [reflexivity|]. discriminate.
Qed.

(** C7, amended.  With no filter [list_assignments] returns every record
    of the store, in the store's order; with [assignment_type] ["lab"]
    alone, exactly the records whose type is ["lab"]; with an
    [assignment_type] of the route (["test"] or ["lab"]) and a [student_id]
    that is not the empty text, exactly the records that match both.  The
    route [GET /assignments] answers with the same lists. *)
Theorem list_returns_matching (db : assignments_db) (t s : string) :
  t = "test" \/ t = "lab" ->
  s <> "" ->
  list_assignments None None db = (Returned (PyDict.values db), db)
  /\ list_assignments (Some "lab") None db
     = (Returned (filter (has_type "lab") (PyDict.values db)), db)
  /\ list_assignments (Some t) (Some s) db
     = (Returned
          (filter (fun a => has_type t a && has_student s a) (PyDict.values db)),
        db)
  /\ GET_assignments (Some t) (Some s) db
     = list_assignments (Some t) (Some s) db.
Proof.
  intros Ht Hs.
  assert (Ht' : t <> "") by (destruct Ht; subst; discriminate).
  assert (E : list_assignments (Some t) (Some s) db
              = (Returned
                   (filter (fun a => has_type t a && has_student s a)
                      (PyDict.values db)), db)).
  { rewrite list_assignments_run.
    rewrite (truthy_nonempty t Ht'), (truthy_nonempty s Hs).
    cbv zeta. now rewrite filter_filter. }
  split; [reflexivity|]. split; [reflexivity|]. split; [exact E|].
  unfold GET_assignments. apply Literal_test_lab in Ht. rewrite Ht.
  unfold bind. rewrite E. unfold ret.
  unfold AssignmentResponse. now rewrite map_id.
Qed.

Lemma list_returns_matching_witness :
  list_assignments None None db_john = (Returned (PyDict.values db_john), db_john)
  /\ list_assignments (Some "lab") None db_john
     = (Returned (filter (has_type "lab") (PyDict.values db_john)), db_john)
  /\ list_assignments (Some "lab") (Some "S12345") db_john
     = (Returned
          (filter (fun a => has_type "lab" a && has_student "S12345" a)
             (PyDict.values db_john)),
        db_john)
  /\ GET_assignments (Some "lab") (Some "S12345") db_john
     = list_assignments (Some "lab") (Some "S12345") db_john.
Proof.
  apply (list_returns_matching db_john "lab" "S12345").
  - right. reflexivity.
  - discriminate.
Defined.

(** C10.  Whatever the store and the type filter, [list_assignments]
    called with the empty text as [student_id] returns what it returns
    with no [student_id] at all, and so does the route. *)
Theorem list_empty_student_id (db : assignments_db)
    (assignment_type : option string) :
  list_assignments assignment_type (Some "") db
  = list_assignments assignment_type None db
  /\ GET_assignments assignment_type (Some "") db
     = GET_assignments assignment_type None db.
Proof.
  split; [reflexivity|].
  unfold GET_assignments.
  destruct assignment_type as [t|]; [destruct (Literal ["test"; "lab"] t)|];
    reflexivity.
Qed.

(** ** The grade invariant *)

(** C8.  In every store that a sequence of submit, list, get, grade and
    delete calls leads to from the empty store, each record has [grade]
    absent or within [0, 100], and has [graded_at] exactly when it has
    [grade]. *)
Theorem reachable_grades_valid (db : assignments_db) :
  reachable db ->
  forall a : Assignment.dict,
    In a (PyDict.values db) -> grade_in_range a /\ graded_at_iff_grade a.
Proof.
  intros Hreach a Hin. apply reachable_graded_well in Hreach.
  apply PyDictFacts.In_values in Hin as [k Hin].
  rewrite Forall_forall in Hreach. exact (Hreach _ Hin).
Qed.

Lemma reachable_grades_valid_witness :
  grade_in_range
    (Assignment.mk "7c9e6679" "John Doe" "S12345" "lab" "Lab 1 - Docker Basics"
       "https://github.com/johndoe/lab1" "2024-03-01T09:30:00.125000"
       (Some float_95) (Some "2024-03-02T10:00:00"))
  /\ graded_at_iff_grade
       (Assignment.mk "7c9e6679" "John Doe" "S12345" "lab"
          "Lab 1 - Docker Basics" "https://github.com/johndoe/lab1"
          "2024-03-01T09:30:00.125000"
          (Some float_95) (Some "2024-03-02T10:00:00")).
Proof.
  apply (reachable_grades_valid
           (snd (run (Grade "2024-03-02T10:00:00" "7c9e6679"
                        (GradeSubmission.mk float_95)) db_john))).
  - apply reachable_run; [|reflexivity].
    exact (reachable_run empty_db
             (Submit "7c9e6679" "2024-03-01T09:30:00.125000" john_doe)
             reachable_empty I).
  - left. reflexivity.
Defined.

(** * Further properties of the handlers *)

(** ** The range test, case by case *)

(** X1.  For an assignment that is in the store, [grade_assignment] raises
    the 400 [HTTPException] exactly when the binary64 grade is NaN, below 0
    or above 100; NaN fails the test because both of its comparisons are
    false. *)
Theorem grade_rejected_iff (db : assignments_db)
    (assignment_id utcnow : string) (a : Assignment.dict) (g : float) :
  PyDict.get assignment_id db = Some a ->
  binary64 g = true ->
  grade_assignment utcnow assignment_id (GradeSubmission.mk g) db
  = (Raised (HTTPException 400 "Grade must be between 0 and 100"), db)
  <-> g = S754_nan \/ float_below g 0 \/ float_above g 100.
Proof.
  intros Hget Hv. split.
  - intros E.
    destruct (chained_le float_0 g float_100) eqn:Hg.
    { rewrite (grade_assignment_accepted utcnow assignment_id
                 (GradeSubmission.mk g) a db Hget Hg) in E. discriminate. }
    clear E.
    assert (Hout : ~ within_0_100 g).
    { intros Hin. apply (range_test_exact g Hv) in Hin. congruence. }
    destruct g as [s|s| |s m e].
    + exfalso. apply Hout. exists 0%Q.
      repeat split; cbv [Qle Qnum Qden]; lia.
    + destruct s; [right; left; now left | right; right; now left].
    + now left.
    + right.
      destruct (Qlt_le_dec (finite_value s m e) 0) as [Hneg|Hpos].
      { left. right. eexists. split; [reflexivity | exact Hneg]. }
      destruct (Qlt_le_dec 100 (finite_value s m e)) as [Hbig|Hsmall].
      { right. right. eexists. split; [reflexivity | exact Hbig]. }
      exfalso. apply Hout. eexists. split; [reflexivity|]. now split.
  - intros Hout.
    apply (grade_assignment_rejected utcnow assignment_id
             (GradeSubmission.mk g) a db Hget).
    destruct Hout as [->|Hout]; [reflexivity|].
    now apply range_test_rejects.
Qed.

Lemma grade_rejected_iff_witness :
  grade_assignment "2024-03-02T10:00:00" "7c9e6679"
    (GradeSubmission.mk S754_nan) db_john
  = (Raised (HTTPException 400 "Grade must be between 0 and 100"), db_john)
  <-> S754_nan = S754_nan \/ float_below S754_nan 0 \/ float_above S754_nan 100.
Proof.
  apply (grade_rejected_iff db_john "7c9e6679" "2024-03-02T10:00:00"
           (Assignment.mk "7c9e6679" "John Doe" "S12345" "lab"
              "Lab 1 - Docker Basics" "https://github.com/johndoe/lab1"
              "2024-03-01T09:30:00.125000" None None) S754_nan);
    reflexivity.
Defined.

(** ** Grading again, submitting again *)

(** X2.  A grade replaces the one before it: grading with [g1] and then
    with an in-range [g2] answers and leaves the store exactly as grading
    with [g2] alone does; nothing of the first grade or of its stamp is
    kept. *)
Theorem regrade_overwrites (db : assignments_db)
    (assignment_id t1 t2 : string) (g1 g2 : float) :
  PyDict.contains assignment_id db = true ->
  binary64 g2 = true ->
  within_0_100 g2 ->
  grade_assignment t2 assignment_id (GradeSubmission.mk g2)
    (snd (grade_assignment t1 assignment_id (GradeSubmission.mk g1) db))
  = grade_assignment t2 assignment_id (GradeSubmission.mk g2) db.
Proof.
  intros Hin Hv2 Hg2. apply PyDictFacts.contains_true in Hin as [a Hget].
  apply (range_test_exact g2 Hv2) in Hg2.
  destruct (chained_le float_0 g1 float_100) eqn:Hg1.
  - rewrite (grade_assignment_accepted t1 assignment_id (GradeSubmission.mk g1)
               a db Hget Hg1). simpl.
    rewrite (grade_assignment_accepted t2 assignment_id (GradeSubmission.mk g2)
               _ _ (PyDictFacts.get_setitem_same _ _ _) Hg2).
    rewrite (grade_assignment_accepted t2 assignment_id (GradeSubmission.mk g2)
               a db Hget Hg2).
    simpl. now rewrite PyDictFacts.setitem_setitem.
  - now rewrite (grade_assignment_rejected t1 assignment_id
                   (GradeSubmission.mk g1) a db Hget Hg1).
Qed.

Lemma regrade_overwrites_witness :
  grade_assignment "2024-03-03T08:00:00" "7c9e6679"
    (GradeSubmission.mk float_95)
    (snd (grade_assignment "2024-03-02T10:00:00" "7c9e6679"
            (GradeSubmission.mk float_100) db_john))
  = grade_assignment "2024-03-03T08:00:00" "7c9e6679"
      (GradeSubmission.mk float_95) db_john.
Proof.
  apply (regrade_overwrites db_john "7c9e6679" "2024-03-02T10:00:00"
           "2024-03-03T08:00:00" float_100 float_95).
  - reflexivity.
  - reflexivity.
  - eexists. split; [reflexivity|]. split; vm_compute; discriminate.
Defined.

(** X3.  [submit_assignment] does not look whether the generated id is
    taken: when it is, the new record replaces the one that was there, in
    its place; the keys of the store and their order are the same, and the
    record under the id has no grade, whatever grade the old one had. *)
Theorem submit_over_existing_id (db : assignments_db) (uuid4 utcnow : string)
    (submission : AssignmentSubmission.fields) :
  PyDict.contains uuid4 db = true ->
  exists (a : Assignment.dict) (db' : assignments_db),
    submit_assignment uuid4 utcnow submission db = (Returned a, db')
    /\ PyDict.keys db' = PyDict.keys db
    /\ PyDict.get uuid4 db' = Some a
    /\ Assignment.grade a = None
    /\ Assignment.graded_at a = None
    /\ Assignment.submitted_at a = utcnow.
Proof.
  intros Hin. eexists. eexists. split; [apply submit_assignment_eq|].
  split; [now apply PyDictFacts.keys_setitem_present|].
  split; [apply PyDictFacts.get_setitem_same|]. repeat split.
Qed.

Lemma submit_over_existing_id_witness :
  exists (a : Assignment.dict) (db' : assignments_db),
    submit_assignment "7c9e6679" "2024-03-05T12:00:00" homework
      (snd (grade_assignment "2024-03-02T10:00:00" "7c9e6679"
              (GradeSubmission.mk float_95) db_john))
    = (Returned a, db')
    /\ PyDict.keys db'
       = PyDict.keys
           (snd (grade_assignment "2024-03-02T10:00:00" "7c9e6679"
                   (GradeSubmission.mk float_95) db_john))
    /\ PyDict.get "7c9e6679" db' = Some a
    /\ Assignment.grade a = None
    /\ Assignment.graded_at a = None
    /\ Assignment.submitted_at a = "2024-03-05T12:00:00".
Proof.
  apply (submit_over_existing_id
           (snd (grade_assignment "2024-03-02T10:00:00" "7c9e6679"
                   (GradeSubmission.mk float_95) db_john))
           "7c9e6679" "2024-03-05T12:00:00" homework).
  reflexivity.
Defined.

(** X4.  The [submitted_at] a client puts in the body has no effect: the
    submit route answers and stores the same whatever it is, the stamp of
    the record being the server's clock reading. *)
Theorem client_submitted_at_ignored (uuid4 utcnow : string)
    (body : AssignmentSubmission.fields) (t : option string)
    (db : assignments_db) :
  POST_assignments_submit uuid4 utcnow (with_submitted_at t body) db
  = POST_assignments_submit uuid4 utcnow body db.
Proof. destruct body. reflexivity. Qed.

(** ** What a listing holds *)

Lemma filter_all {A : Type} (p : A -> bool) (l : list A) :
  Forall (fun x => p x = true) l -> filter p l = l.
Proof.
  induction 1 as [|x l Hx _ IH]; simpl; [reflexivity|].
  now rewrite Hx, IH.
Qed.

Lemma list_assignments_passes (assignment_type student_id : option string)
    (db : assignments_db) :
  list_assignments assignment_type student_id db
  = (Returned (filter (passes assignment_type student_id) (PyDict.values db)), db).
Proof.
  rewrite list_assignments_run. unfold passes. f_equal. f_equal.
  destruct (truthy assignment_type), (truthy student_id); cbv zeta.
  - apply filter_filter.
  - apply filter_ext. intros a. now rewrite andb_true_r.
  - reflexivity.
  - symmetry. apply filter_all, Forall_forall. reflexivity.
Qed.

(** X5.  [list_assignments] returns, in the order of the store, exactly
    the records that pass every filter whose value is neither [None] nor
    the empty text; so a record is listed when and only when it is in the
    store, has the type asked for if one is asked for, and the student
    asked for if one is asked for. *)
Theorem list_holds_what_passes (assignment_type student_id : option string)
    (db : assignments_db) :
  list_assignments assignment_type student_id db
  = (Returned (filter (passes assignment_type student_id) (PyDict.values db)), db)
  /\ forall (l : list Assignment.dict) (a : Assignment.dict),
       fst (list_assignments assignment_type student_id db) = Returned l ->
       (In a l <->
        In a (PyDict.values db)
        /\ (truthy assignment_type = true ->
            Some (Assignment.assignment_type a) = assignment_type)
        /\ (truthy student_id = true ->
            Some (Assignment.student_id a) = student_id)).
Proof.
  split; [apply list_assignments_passes|].
  intros l a. rewrite list_assignments_passes. simpl.
  intros E. injection E as <-. rewrite filter_In. unfold passes.
  rewrite andb_true_iff.
  assert (Heq : forall (v : string) (x : option string),
             truthy x = true -> (str_eq v x = true <-> Some v = x)).
  { intros v [x|] Hx; [|discriminate]. simpl. rewrite String.eqb_eq.
    split; congruence. }
  destruct (truthy assignment_type) eqn:Ht, (truthy student_id) eqn:Hs;
    try rewrite (Heq _ _ Ht); try rewrite (Heq _ _ Hs); intuition congruence.
Qed.

Lemma values_app (d1 d2 : assignments_db) :
  PyDict.values (d1 ++ d2)%list = (PyDict.values d1 ++ PyDict.values d2)%list.
Proof. apply map_app. Qed.

(** X6.  After a submit under an id that is new to the store, a listing
    is the listing of before, followed by the new record when it passes
    the filters: records come out in the order they were submitted. *)
Theorem list_after_submit (db : assignments_db) (uuid4 utcnow : string)
    (submission : AssignmentSubmission.fields)
    (assignment_type student_id : option string) :
  PyDict.contains uuid4 db = false ->
  exists (a : Assignment.dict) (db' : assignments_db)
         (before : list Assignment.dict),
    submit_assignment uuid4 utcnow submission db = (Returned a, db')
    /\ fst (list_assignments assignment_type student_id db) = Returned before
    /\ fst (list_assignments assignment_type student_id db')
       = Returned
           (before ++ (if passes assignment_type student_id a then [a] else []))%list.
Proof.
  intros Hnew. eexists. eexists. eexists.
  split; [apply submit_assignment_eq|].
  rewrite !list_assignments_passes. simpl. split; [reflexivity|].
  rewrite (PyDictFacts.setitem_absent _ _ _ Hnew), values_app, filter_app.
  reflexivity.
Qed.

Lemma list_after_submit_witness :
  exists (a : Assignment.dict) (db' : assignments_db)
         (before : list Assignment.dict),
    submit_assignment "1b4e28ba" "2024-03-01T09:31:00" homework db_john
    = (Returned a, db')
    /\ fst (list_assignments (Some "lab") None db_john) = Returned before
    /\ fst (list_assignments (Some "lab") None db')
       = Returned
           (before ++ (if passes (Some "lab") None a then [a] else []))%list.
Proof.
  apply (list_after_submit db_john "1b4e28ba" "2024-03-01T09:31:00" homework
           (Some "lab") None).
  reflexivity.
Defined.

Lemma values_delitem (db : assignments_db) (k : string) :
  coherent db ->
  PyDict.values (PyDict.delitem k db)
  = filter (fun a => negb (String.eqb (Assignment.id a) k)) (PyDict.values db).
Proof.
  intros [Hwf Hid]. unfold PyDict.well_formed in Hwf.
  induction db as [|[k' a'] db IH]; simpl; [reflexivity|].
  inversion Hwf as [|? ? Hnotin Hwf']; subst.
  inversion Hid as [|? ? Hhead Hid']; subst. simpl in Hhead.
  rewrite Hhead. rewrite (String.eqb_sym k' k).
  destruct (String.eqb_spec k k') as [->|Hne]; simpl.
  - symmetry. apply filter_all, Forall_forall. intros a Ha.
    apply PyDictFacts.In_values in Ha as [k0 Hin].
    unfold keyed_by_id in Hid'. rewrite Forall_forall in Hid'.
    pose proof (Hid' _ Hin) as E. simpl in E. rewrite E.
    destruct (String.eqb_spec k0 k') as [->|]; [|reflexivity].
    exfalso. apply Hnotin. eapply PyDictFacts.In_keys; eauto.
  - f_equal. now apply IH.
Qed.

Lemma delitem_absent (db : assignments_db) (k : string) :
  PyDict.get k db = None -> PyDict.delitem k db = db.
Proof.
  induction db as [|[k' a'] db IH]; simpl; [reflexivity|].
  destruct (String.eqb_spec k k'); [discriminate|].
  intros H. f_equal. now apply IH.
Qed.

(** X7.  In a store the process can be in, a listing made after a delete
    is the listing of before without the records of the deleted id; the
    others keep their order.  When nothing is under the id, the delete
    raises and the listing is the one of before. *)
Theorem list_after_delete (db : assignments_db) (assignment_id : string)
    (assignment_type student_id : option string) :
  reachable db ->
  fst (list_assignments assignment_type student_id
         (snd (delete_assignment assignment_id db)))
  = Returned
      (filter
         (fun a => passes assignment_type student_id a
                   && negb (String.eqb (Assignment.id a) assignment_id))
         (PyDict.values db)).
Proof.
  intros Hreach. apply reachable_coherent in Hreach.
  rewrite list_assignments_passes. simpl. f_equal.
  assert (E : PyDict.values (snd (delete_assignment assignment_id db))
              = filter (fun a => negb (String.eqb (Assignment.id a) assignment_id))
                  (PyDict.values db)).
  { rewrite <- (values_delitem db assignment_id Hreach).
    destruct (PyDict.get assignment_id db) as [a|] eqn:Hget.
    - now rewrite (delete_assignment_present _ _ _ Hget).
    - rewrite (delete_assignment_absent _ _ Hget). simpl.
      now rewrite (delitem_absent db assignment_id Hget). }
  rewrite E, filter_filter. apply filter_ext. intros a. apply andb_comm.
Qed.

Lemma list_after_delete_witness :
  fst (list_assignments None (Some "S12345")
         (snd (delete_assignment "7c9e6679" db_john)))
  = Returned
      (filter
         (fun a => passes None (Some "S12345") a
                   && negb (String.eqb (Assignment.id a) "7c9e6679"))
         (PyDict.values db_john)).
Proof.
  apply (list_after_delete db_john "7c9e6679" None (Some "S12345")).
  exact (reachable_run empty_db
           (Submit "7c9e6679" "2024-03-01T09:30:00.125000" john_doe)
           reachable_empty I).
Defined.

(** X8.  The list route turns away an [assignment_type] that is neither
    ["test"] nor ["lab"] with a client error (422) and leaves the store
    alone; the empty text is no exception, so through the route an
    [assignment_type] is never taken for absent the way an empty
    [student_id] is. *)
Theorem list_route_rejects_other_types (db : assignments_db)
    (t : string) (student_id : option string) :
  t <> "test" ->
  t <> "lab" ->
  GET_assignments (Some t) student_id db
  = (Raised (RequestValidationError "assignment_type"), db)
  /\ client_error (status_of (fst (GET_assignments (Some t) student_id db)))
     = true.
Proof.
  intros Htest Hlab.
  assert (E : Literal ["test"; "lab"] t = false).
  { destruct (Literal ["test"; "lab"] t) eqn:E; [|reflexivity].
    apply Literal_test_lab in E. tauto. }
  unfold GET_assignments. rewrite E. split; reflexivity.
Qed.

Lemma list_route_rejects_other_types_witness :
  GET_assignments (Some "") (Some "S12345") db_john
  = (Raised (RequestValidationError "assignment_type"), db_john)
  /\ client_error
       (status_of (fst (GET_assignments (Some "") (Some "S12345") db_john)))
     = true.
Proof.
  apply (list_route_rejects_other_types db_john "" (Some "S12345"));
    discriminate.
Defined.

(** ** What the handlers never do *)

(** X9.  No handler lets a [KeyError] out: every subscript and the [del]
    come after the membership test that makes them safe.  Whatever the
    call and the store, a handler returns or raises [HTTPException] with
    404 or 400; the answer is never a 500. *)
Theorem handlers_raise_only_http (c : call) (db : assignments_db) :
  match fst (run c db) with
  | Returned _ => True
  | Raised (HTTPException code _) => code = 404%Z \/ code = 400%Z
  | Raised _ => False
  end.
Proof.
  destruct c as [uuid4 utcnow submission | t s | k | utcnow k [g] | k];
    unfold run, bind.
  - now rewrite submit_assignment_eq.
  - now destruct (list_assignments_eq t s db) as [l ->].
  - destruct (PyDict.get k db) as [a|] eqn:H.
    + now rewrite (get_assignment_present _ _ _ H).
    + rewrite (get_assignment_absent _ _ H). simpl. now left.
  - destruct (PyDict.get k db) as [a|] eqn:H.
    + destruct (chained_le float_0 g float_100) eqn:Hg.
      * now rewrite (grade_assignment_accepted utcnow k (GradeSubmission.mk g)
                       a db H Hg).
      * rewrite (grade_assignment_rejected utcnow k (GradeSubmission.mk g)
                   a db H Hg). simpl. now right.
    + rewrite (grade_assignment_absent _ _ _ _ H). simpl. now left.
  - destruct (PyDict.get k db) as [a|] eqn:H.
    + now rewrite (delete_assignment_present _ _ _ H).
    + rewrite (delete_assignment_absent _ _ H). simpl. now left.
Qed.

(** X10.  In a store the process can be in, no two records have the same
    [id], and each record is the one that a lookup of its own [id] finds. *)
Theorem reachable_ids_unique (db : assignments_db) :
  reachable db ->
  NoDup (map Assignment.id (PyDict.values db))
  /\ forall a : Assignment.dict,
       In a (PyDict.values db) -> PyDict.get (Assignment.id a) db = Some a.
Proof.
  intros Hreach. apply reachable_coherent in Hreach as [Hwf Hid].
  unfold keyed_by_id in Hid. rewrite Forall_forall in Hid. split.
  - assert (E : map Assignment.id (PyDict.values db) = PyDict.keys db).
    { unfold PyDict.values, PyDict.keys. rewrite map_map.
      apply map_ext_in. intros entry Hin. now apply Hid. }
    rewrite E. exact Hwf.
  - intros a Ha. apply PyDictFacts.In_values in Ha as [k Hin].
    pose proof (Hid _ Hin) as E. simpl in E. rewrite E.
    now apply PyDictFacts.In_get.
Qed.

Lemma reachable_ids_unique_witness :
  NoDup (map Assignment.id (PyDict.values db_john))
  /\ forall a : Assignment.dict,
       In a (PyDict.values db_john) ->
       PyDict.get (Assignment.id a) db_john = Some a.
Proof.
  apply (reachable_ids_unique db_john).
  exact (reachable_run empty_db
           (Submit "7c9e6679" "2024-03-01T09:30:00.125000" john_doe)
           reachable_empty I).
Defined.



(** X12.  In a store reached under a clock that never goes back, every
    record that has a [graded_at] was graded no earlier than it was
    submitted, and no stamp in the store is later than the current
    reading. *)
Theorem stamps_follow_the_clock (t : string) (db : assignments_db)
    (a : Assignment.dict) (u : string) :
  clock_run t db ->
  In a (PyDict.values db) ->
  Assignment.graded_at a = Some u ->
  String.leb (Assignment.submitted_at a) u = true
  /\ String.leb u t = true.
Proof.
  intros Hrun Ha Hu. apply PyDictFacts.In_values in Ha as [k Hin].
  pose proof (clock_run_stamped t db Hrun) as H.
  rewrite Forall_forall in H. destruct (H _ Hin) as [_ Hg].
  exact (Hg u Hu).
Qed.

Lemma stamps_follow_the_clock_witness :
  String.leb "2024-03-01T09:30:00.125000" "2024-03-02T10:00:00" = true
  /\ String.leb "2024-03-02T10:00:00" "2024-03-04T00:00:00" = true.
Proof.
  apply (stamps_follow_the_clock "2024-03-04T00:00:00"
           (snd (run (Grade "2024-03-02T10:00:00" "7c9e6679"
                        (GradeSubmission.mk float_95)) db_john))
           (Assignment.mk "7c9e6679" "John Doe" "S12345" "lab"
              "Lab 1 - Docker Basics" "https://github.com/johndoe/lab1"
              "2024-03-01T09:30:00.125000"
              (Some float_95) (Some "2024-03-02T10:00:00"))
           "2024-03-02T10:00:00").
  - apply (clock_tick "2024-03-02T10:00:00" "2024-03-04T00:00:00");
      [|reflexivity].
    apply (clock_call "2024-03-02T10:00:00" db_john
             (Grade "2024-03-02T10:00:00" "7c9e6679"
                (GradeSubmission.mk float_95))).
    + apply (clock_tick "2024-03-01T09:30:00.125000" "2024-03-02T10:00:00");
        [|reflexivity].
      apply (clock_call "2024-03-01T09:30:00.125000" empty_db
               (Submit "7c9e6679" "2024-03-01T09:30:00.125000" john_doe)).
      * apply clock_start.
      * intros u Hu. simpl in Hu. congruence.
    + intros u Hu. simpl in Hu. congruence.
  - left. reflexivity.
  - reflexivity.
Defined.

(** * The middleware and the routes *)

(** ** Counters *)

Lemma labels_eqb_spec (x y : labels) : reflect (x = y) (labels_eqb x y).
Proof.
  destruct x as [[m1 e1] s1], y as [[m2 e2] s2]. unfold labels_eqb.
  destruct (String.eqb_spec m1 m2) as [->|Hm]; simpl;
    [|constructor; congruence].
  destruct (String.eqb_spec e1 e2) as [->|He]; simpl;
    [|constructor; congruence].
  destruct (Z.eqb_spec s1 s2) as [->|Hs]; constructor; congruence.
Qed.

Lemma counter_value_inc_same (l : labels) (c : Counter) :
  counter_value l (counter_inc l c) = (counter_value l c + 1)%N.
Proof.
  induction c as [|[l' n] c IH]; simpl.
  - destruct (labels_eqb_spec l l); [reflexivity | contradiction].
  - destruct (labels_eqb_spec l l') as [->|Hne]; simpl.
    + destruct (labels_eqb_spec l' l'); [reflexivity | contradiction].
    + destruct (labels_eqb_spec l l'); [contradiction | exact IH].
Qed.

Lemma counter_value_inc_other (l l' : labels) (c : Counter) :
  l <> l' -> counter_value l' (counter_inc l c) = counter_value l' c.
Proof.
  intros Hne. induction c as [|[l0 n] c IH]; simpl.
  - destruct (labels_eqb_spec l' l); [congruence | reflexivity].
  - destruct (labels_eqb_spec l l0) as [->|Hne0]; simpl.
    + destruct (labels_eqb_spec l' l0); [congruence | reflexivity].
    + now rewrite IH.
Qed.

Lemma counter_total_inc (l : labels) (c : Counter) :
  counter_total (counter_inc l c) = (counter_total c + 1)%N.
Proof.
  unfold counter_total. induction c as [|[l' n] c IH]; simpl; [reflexivity|].
  destruct (labels_eqb l l'); simpl; [lia|]. rewrite IH. lia.
Qed.

(** ** The middleware around any application *)

(** X13.  Whatever application it wraps, when that answers, the middleware
    hands the answer on with its status, body and media type, with the
    header [X-Request-ID] set to the uuid of the request and every other
    header as it was; it leaves the store as the application left it. *)
Theorem middleware_hands_answer_on (env : Env.t) (m p : string)
    (call_next : app Response.t) (w w' : World.t) (response : Response.t) :
  call_next w = (Returned response, w') ->
  exists (answer : Response.t) (w'' : World.t),
    log_requests env m p call_next w = (Returned answer, w'')
    /\ Response.status_code answer = Response.status_code response
    /\ Response.content answer = Response.content response
    /\ Response.media answer = Response.media response
    /\ PyDict.get "X-Request-ID" (Response.headers answer) = Some (Env.uuid4 env)
    /\ (forall k : string, k <> "X-Request-ID" ->
          PyDict.get k (Response.headers answer)
          = PyDict.get k (Response.headers response))
    /\ World.store w'' = World.store w'.
Proof.
  intros H. unfold log_requests. rewrite H.
  eexists. eexists. split; [reflexivity|]. simpl.
  repeat split.
  - apply PyDictFacts.get_setitem_same.
  - intros k Hk. apply PyDictFacts.get_setitem_other. congruence.
Qed.

(** X14.  Whatever application it wraps, when that answers, the middleware
    adds one to the counter labelled with the method, the path and the
    status answered, leaves every other counter as it was, observes one
    duration, the second reading of the clock minus the first, and logs
    one line, which carries the uuid sent back in [X-Request-ID] and the
    status answered. *)
Theorem middleware_counts_once (env : Env.t) (m p : string)
    (call_next : app Response.t) (w w' : World.t) (response : Response.t) :
  call_next w = (Returned response, w') ->
  let w'' := snd (log_requests env m p call_next w) in
  let l := (m, p, Response.status_code response) in
  counter_value l (World.REQUEST_COUNT w'')
  = (counter_value l (World.REQUEST_COUNT w') + 1)%N
  /\ (forall l' : labels, l' <> l ->
        counter_value l' (World.REQUEST_COUNT w'')
        = counter_value l' (World.REQUEST_COUNT w'))
  /\ counter_total (World.REQUEST_COUNT w'')
     = (counter_total (World.REQUEST_COUNT w') + 1)%N
  /\ World.REQUEST_DURATION w''
     = (World.REQUEST_DURATION w'
        ++ [SFsub 53 1024 (Env.end_time env) (Env.start_time env)])%list
  /\ exists line : LogData.dict,
       World.logger w'' = (World.logger w' ++ [line])%list
       /\ LogData.request_id line = Env.uuid4 env
       /\ LogData.status_code line = Response.status_code response
       /\ LogData.method line = m
       /\ LogData.path line = p.
Proof.
  intros H w'' l. subst w'' l. unfold log_requests. rewrite H. simpl.
  split; [apply counter_value_inc_same|].
  split; [intros l' Hl'; apply counter_value_inc_other; congruence|].
  split; [apply counter_total_inc|].
  split; [reflexivity|].
  eexists. split; [reflexivity|]. repeat split.
Qed.

Lemma middleware_hands_answer_on_witness :
  exists (answer : Response.t) (w'' : World.t),
    log_requests env_john "GET" "/assignments/7c9e6679"
      (routes (get_one "/assignments/7c9e6679" "7c9e6679")) world_john = (Returned answer, w'')
    /\ Response.status_code answer = 200%Z
    /\ Response.content answer
       = Json_record
           (Assignment.mk "7c9e6679" "John Doe" "S12345" "lab"
              "Lab 1 - Docker Basics" "https://github.com/johndoe/lab1"
              "2024-03-01T09:30:00.125000" None None)
    /\ Response.media answer = application_json
    /\ PyDict.get "X-Request-ID" (Response.headers answer) = Some "f47ac10b"
    /\ (forall k : string, k <> "X-Request-ID" ->
          PyDict.get k (Response.headers answer) = PyDict.get k [])
    /\ World.store w'' = db_john.
Proof.
  apply (middleware_hands_answer_on env_john "GET" "/assignments/7c9e6679"
           (routes (get_one "/assignments/7c9e6679" "7c9e6679")) world_john world_john
           (Response.mk 200
              (Json_record
                 (Assignment.mk "7c9e6679" "John Doe" "S12345" "lab"
                    "Lab 1 - Docker Basics" "https://github.com/johndoe/lab1"
                    "2024-03-01T09:30:00.125000" None None))
              application_json [])).
  reflexivity.
Defined.

Lemma middleware_counts_once_witness :
  let w'' :=
    snd (log_requests env_john "GET" "/assignments/nonexistent-id"
           (routes (get_one "/assignments/nonexistent-id" "nonexistent-id")) world_john) in
  let l := ("GET", "/assignments/nonexistent-id", 404%Z) in
  counter_value l (World.REQUEST_COUNT w'')
  = (counter_value l (World.REQUEST_COUNT world_john) + 1)%N
  /\ (forall l' : labels, l' <> l ->
        counter_value l' (World.REQUEST_COUNT w'')
        = counter_value l' (World.REQUEST_COUNT world_john))
  /\ counter_total (World.REQUEST_COUNT w'')
     = (counter_total (World.REQUEST_COUNT world_john) + 1)%N
  /\ World.REQUEST_DURATION w''
     = (World.REQUEST_DURATION world_john
        ++ [SFsub 53 1024 (Env.end_time env_john) (Env.start_time env_john)])%list
  /\ exists line : LogData.dict,
       World.logger w'' = (World.logger world_john ++ [line])%list
       /\ LogData.request_id line = Env.uuid4 env_john
       /\ LogData.status_code line = 404%Z
       /\ LogData.method line = "GET"
       /\ LogData.path line = "/assignments/nonexistent-id".
Proof.
  apply (middleware_counts_once env_john "GET" "/assignments/nonexistent-id"
           (routes (get_one "/assignments/nonexistent-id" "nonexistent-id")) world_john world_john
           (Response.mk 404 (Json_detail "Assignment not found")
              application_json [])).
  reflexivity.
Defined.

(** ** The routes of this application *)

Lemma answer_answerable {A : Type} (to_body : A -> body) (h : handler A)
    (w : World.t) (o : outcome A) (db' : assignments_db) :
  h (World.store w) = (o, db') ->
  answerable o ->
  exists response : Response.t,
    answer to_body h w
    = (Returned response,
       World.mk db' (World.REQUEST_COUNT w) (World.REQUEST_DURATION w)
         (World.logger w))
    /\ known_status (Response.status_code response)
    /\ Response.headers response = [].
Proof.
  intros Hh Ho. unfold answer, on_store. rewrite Hh. unfold known_status.
  destruct o as [a|[code detail|field|key|name]]; simpl in *;
    try contradiction; eexists; (split; [reflexivity|]); simpl; split; auto.
  destruct Ho as [->| ->]; auto.
Qed.

Lemma route_outcome_answerable (r : request) (w : World.t) :
  exists (response : Response.t) (db' : assignments_db),
    routes r w
    = (Returned response,
       World.mk db' (World.REQUEST_COUNT w) (World.REQUEST_DURATION w)
         (World.logger w))
    /\ known_status (Response.status_code response)
    /\ Response.headers response = []
    /\ (method r = "GET" -> db' = World.store w).
Proof.
  assert (Hw : w = World.mk (World.store w) (World.REQUEST_COUNT w)
                 (World.REQUEST_DURATION w) (World.logger w))
    by (destruct w; reflexivity).
  assert (Hstore :
    forall (A : Type) (to_body : A -> body) (h : handler A)
           (o : outcome A) (db' : assignments_db),
      h (World.store w) = (o, db') -> answerable o ->
      (method r = "GET" -> db' = World.store w) ->
      exists (response : Response.t) (db'' : assignments_db),
        answer to_body h w
        = (Returned response,
           World.mk db'' (World.REQUEST_COUNT w) (World.REQUEST_DURATION w)
             (World.logger w))
        /\ known_status (Response.status_code response)
        /\ Response.headers response = []
        /\ (method r = "GET" -> db'' = World.store w)).
  { intros A to_body h o db' Hh Ho Hget.
    destruct (answer_answerable to_body h w o db' Hh Ho) as [resp [E [Hs Hh']]].
    exists resp, db'. auto. }
  unfold known_status in *.
  destruct r as [ | utcnow | | uuid4 utcnow b | t s | p k | p utcnow k [g] | p k];
    simpl routes.
  - eexists. exists (World.store w). rewrite <- Hw. simpl. auto.
  - eexists. exists (World.store w). rewrite <- Hw. simpl. auto.
  - eexists. exists (World.store w). unfold metrics. rewrite <- Hw. simpl. auto.
  - destruct (POST_assignments_submit uuid4 utcnow b (World.store w))
      as [o db'] eqn:E.
    apply (Hstore _ _ _ o db' E); [|discriminate].
    unfold POST_assignments_submit in E.
    change (PyDict.get "AssignmentSubmission" module_globals)
      with (Some AssignmentSubmission_line42) in E. cbv beta iota in E.
    destruct (AssignmentSubmission_line42 b).
    + unfold bind in E. rewrite submit_assignment_eq in E.
      inversion E. exact I.
    + inversion E. exact I.
  - destruct (GET_assignments t s (World.store w)) as [o db'] eqn:E.
    assert (Ho : answerable o /\ db' = World.store w).
    { unfold GET_assignments in E.
      destruct (list_assignments_eq t s (World.store w)) as [l El].
      destruct t as [t|]; [destruct (Literal ["test"; "lab"] t)|];
        unfold bind in E; try rewrite El in E; inversion E; split;
        try exact I; reflexivity. }
    destruct Ho as [Ho ->]. apply (Hstore _ _ _ o _ E Ho). reflexivity.
  - destruct (PyDict.get k (World.store w)) as [a|] eqn:H.
    + apply (Hstore _ _ _ (Returned (AssignmentResponse a)) (World.store w));
        [|exact I|reflexivity].
      unfold bind. now rewrite (get_assignment_present _ _ _ H).
    + apply (Hstore _ _ _
               (Raised (HTTPException 404 "Assignment not found"))
               (World.store w)); [|now left|reflexivity].
      unfold bind. now rewrite (get_assignment_absent _ _ H).
  - destruct (bind (grade_assignment utcnow k (GradeSubmission.mk g))
                (fun a => ret (AssignmentResponse a)) (World.store w))
      as [o db'] eqn:E.
    apply (Hstore _ _ _ o db' E); [|discriminate].
    unfold bind in E.
    destruct (PyDict.get k (World.store w)) as [a|] eqn:H.
    + destruct (chained_le float_0 g float_100) eqn:Hg.
      * rewrite (grade_assignment_accepted utcnow k (GradeSubmission.mk g)
                   a _ H Hg) in E. inversion E. exact I.
      * rewrite (grade_assignment_rejected utcnow k (GradeSubmission.mk g)
                   a _ H Hg) in E. inversion E. simpl. now right.
    + rewrite (grade_assignment_absent _ _ _ _ H) in E. inversion E.
      simpl. now left.
  - destruct (delete_assignment k (World.store w)) as [o db'] eqn:E.
    apply (Hstore _ _ _ o db' E); [|discriminate].
    destruct (PyDict.get k (World.store w)) as [a|] eqn:H.
    + rewrite (delete_assignment_present _ _ _ H) in E. inversion E. exact I.
    + rewrite (delete_assignment_absent _ _ H) in E. inversion E.
      simpl. now left.
Qed.

Lemma serve_eq (env : Env.t) (r : request) (w : World.t) :
  exists (response : Response.t) (db' : assignments_db),
    routes r w
    = (Returned response,
       World.mk db' (World.REQUEST_COUNT w) (World.REQUEST_DURATION w)
         (World.logger w))
    /\ known_status (Response.status_code response)
    /\ (method r = "GET" -> db' = World.store w)
    /\ serve env r w
       = (Returned
            (Response.mk (Response.status_code response)
               (Response.content response) (Response.media response)
               [("X-Request-ID", Env.uuid4 env)]),
          World.mk db'
            (counter_inc (method r, path r, Response.status_code response)
               (World.REQUEST_COUNT w))
            (observe (SFsub 53 1024 (Env.end_time env) (Env.start_time env))
               (World.REQUEST_DURATION w))
            (World.logger w
             ++ [LogData.mk (Env.utcnow env) (Env.uuid4 env) (method r) (path r)
                   (Response.status_code response)
                   (round
                      (SFmul 53 1024
                         (SFsub 53 1024 (Env.end_time env) (Env.start_time env))
                         float_1000) 2)])%list).
Proof.
  destruct (route_outcome_answerable r w) as [resp [db' [E [Hs [Hh Hget]]]]].
  exists resp, db'. split; [exact E|]. split; [exact Hs|]. split; [exact Hget|].
  unfold serve, log_requests. rewrite E. simpl. now rewrite Hh.
Qed.

(** X15.  Every request that reaches a route is answered, with status 200,
    400, 404 or 422 and the header [X-Request-ID]; no route lets an
    exception out, so the middleware never skips a request: the counter of
    its method, path and status goes up by one, and one line is logged and
    one duration observed. *)
Theorem every_request_answered_and_counted (env : Env.t) (r : request)
    (w : World.t) :
  exists (response : Response.t) (w' : World.t),
    serve env r w = (Returned response, w')
    /\ known_status (Response.status_code response)
    /\ PyDict.get "X-Request-ID" (Response.headers response)
       = Some (Env.uuid4 env)
    /\ counter_value (method r, path r, Response.status_code response)
         (World.REQUEST_COUNT w')
       = (counter_value (method r, path r, Response.status_code response)
            (World.REQUEST_COUNT w) + 1)%N
    /\ counter_total (World.REQUEST_COUNT w')
       = (counter_total (World.REQUEST_COUNT w) + 1)%N
    /\ length (World.logger w') = S (length (World.logger w))
    /\ length (World.REQUEST_DURATION w')
       = S (length (World.REQUEST_DURATION w)).
Proof.
  destruct (serve_eq env r w) as [resp [db' [_ [Hs [_ E]]]]].
  eexists. eexists. split; [exact E|]. simpl.
  split; [exact Hs|]. split; [reflexivity|].
  split; [apply counter_value_inc_same|].
  split; [apply counter_total_inc|].
  unfold observe. rewrite !length_app. simpl. split; lia.
Qed.

(** X16.  After any list of requests, from any state, the counters add up
    to what they added up to before plus the number of requests, and the
    log and the observed durations have grown by one entry each per
    request. *)
Theorem serve_all_counts (rs : list (Env.t * request)) (w : World.t) :
  counter_total (World.REQUEST_COUNT (serve_all rs w))
  = (counter_total (World.REQUEST_COUNT w) + N.of_nat (length rs))%N
  /\ length (World.logger (serve_all rs w))
     = (length (World.logger w) + length rs)%nat
  /\ length (World.REQUEST_DURATION (serve_all rs w))
     = (length (World.REQUEST_DURATION w) + length rs)%nat.
Proof.
  revert w. induction rs as [|[env r] rs IH]; intros w.
  - simpl. repeat split; lia.
  - cbn [serve_all length].
    destruct (every_request_answered_and_counted env r w)
      as [resp [w' [E [_ [_ [_ [Ht [Hl Hd]]]]]]]].
    rewrite E. cbn [snd].
    destruct (IH w') as [IHt [IHl IHd]].
    rewrite IHt, IHl, IHd, Ht, Hl, Hd. repeat split; lia.
Qed.

(** X17.  The metrics route shows the counters and durations as they were
    before the request that fetches them: its own count, under
    [GET /metrics 200], and its own duration are added after the body is
    made. *)
Theorem metrics_excludes_itself (env : Env.t) (w : World.t) :
  exists (response : Response.t) (w' : World.t),
    serve env get_metrics w = (Returned response, w')
    /\ Response.status_code response = 200%Z
    /\ Response.content response
       = Exposition (World.REQUEST_COUNT w) (World.REQUEST_DURATION w)
    /\ counter_value ("GET", "/metrics", 200%Z) (World.REQUEST_COUNT w')
       = (counter_value ("GET", "/metrics", 200%Z) (World.REQUEST_COUNT w) + 1)%N
    /\ length (World.REQUEST_DURATION w')
       = S (length (World.REQUEST_DURATION w))
    /\ World.store w' = World.store w.
Proof.
  eexists. eexists. split; [reflexivity|]. simpl.
  split; [reflexivity|]. split; [reflexivity|].
  split; [apply (counter_value_inc_same ("GET", "/metrics", 200%Z))|].
  split; [|reflexivity].
  unfold observe. rewrite length_app. simpl. lia.
Qed.

(** X18.  A GET request never changes the store, whatever it asks for and
    whatever the answer. *)
Theorem get_requests_leave_store (env : Env.t) (r : request) (w : World.t) :
  method r = "GET" ->
  World.store (snd (serve env r w)) = World.store w.
Proof.
  intros Hget. destruct (serve_eq env r w) as [resp [db' [_ [_ [Hdb E]]]]].
  rewrite E. simpl. now apply Hdb.
Qed.

Lemma get_requests_leave_store_witness :
  World.store (snd (serve env_john (get_list (Some "exam") (Some "S12345"))
                      world_john))
  = World.store world_john.
Proof.
  apply (get_requests_leave_store env_john
           (get_list (Some "exam") (Some "S12345")) world_john).
  reflexivity.
Defined.

(** ** The tests *)

Lemma client_serve (env : Env.t) (r : request) (w : World.t) :
  exists (response : Response.t) (db' : assignments_db) (w' : World.t),
    routes r w
    = (Returned response,
       World.mk db' (World.REQUEST_COUNT w) (World.REQUEST_DURATION w)
         (World.logger w))
    /\ World.store w' = db'
    /\ client env r w
       = (Some (Response.mk (Response.status_code response)
                  (Response.content response) (Response.media response)
                  [("X-Request-ID", Env.uuid4 env)]), w').
Proof.
  destruct (serve_eq env r w) as [resp [db' [E [_ [_ Es]]]]].
  exists resp, db'. eexists. split; [exact E|].
  unfold client. rewrite Es. split; [|reflexivity]. reflexivity.
Qed.

Lemma test_submit_assignment_eq (env : Env.t) (uuid4 utcnow : string)
    (w : World.t) :
  exists w' : World.t,
    test_submit_assignment env uuid4 utcnow w = (Some uuid4, w')
    /\ PyDict.contains uuid4 (World.store w') = true.
Proof.
  unfold test_submit_assignment.
  destruct (client_serve env (post_submit uuid4 utcnow john_doe) w)
    as [resp [db' [w' [E [Hdb Ec]]]]].
  rewrite Ec. clear Ec. simpl in E.
  unfold answer, on_store, POST_assignments_submit in E.
  change (PyDict.get "AssignmentSubmission" module_globals)
    with (Some AssignmentSubmission_line42) in E. cbv beta iota in E.
  change (AssignmentSubmission_line42 john_doe) with true in E.
  cbv beta iota in E. unfold bind in E.
  rewrite submit_assignment_eq in E. simpl in E.
  injection E as <- <-. simpl.
  exists w'. split; [reflexivity|]. rewrite Hdb.
  apply PyDictFacts.contains_true. eexists.
  apply PyDictFacts.get_setitem_same.
Qed.

(** X20.  [test_grade_assignment] passes from every state of the
    application, whatever ids and clock readings its two requests are
    handed, also when the id handed to the submit is already taken. *)
Theorem test_grade_assignment_passes (env1 env2 : Env.t)
    (uuid4 utcnow1 utcnow2 : string) (w : World.t) :
  test_grade_assignment env1 uuid4 utcnow1 env2 utcnow2 w = true.
Proof.
  unfold test_grade_assignment.
  destruct (test_submit_assignment_eq env1 uuid4 utcnow1 w) as [w1 [E Hin]].
  rewrite E. cbv zeta.
  destruct (client_serve env2
              (put_grade ("/assignments/" ++ uuid4 ++ "/grade") utcnow2 uuid4
                 (GradeSubmission.mk float_95)) w1)
    as [resp [db' [w2 [Er [_ Ec]]]]].
  rewrite Ec. clear Ec. simpl in Er.
  apply PyDictFacts.contains_true in Hin as [a Hget].
  unfold answer, on_store, bind in Er.
  rewrite (grade_assignment_accepted utcnow2 uuid4 (GradeSubmission.mk float_95)
             a _ Hget eq_refl) in Er.
  simpl in Er. injection Er as <- _. reflexivity.
Qed.

(** X21.  With [AssignmentResponse] supplied as the spec gives it (as
    [app.py] stands the name is not declared, and importing the module
    fails before any test runs), [test_get_nonexistent_assignment] passes
    exactly when the store holds nothing under the id
    ["nonexistent-id"]. *)
Theorem test_get_nonexistent_passes_iff (env : Env.t) (w : World.t) :
  test_get_nonexistent_assignment env w = true
  <-> PyDict.contains "nonexistent-id" (World.store w) = false.
Proof.
  unfold test_get_nonexistent_assignment.
  destruct (client_serve env
              (get_one "/assignments/nonexistent-id" "nonexistent-id") w)
    as [resp [db' [w' [Er [_ Ec]]]]].
  rewrite Ec. clear Ec. simpl in Er. unfold answer, on_store, bind in Er.
  rewrite PyDictFacts.contains_false.
  destruct (PyDict.get "nonexistent-id" (World.store w)) as [a|] eqn:H.
  - rewrite (get_assignment_present _ _ _ H) in Er. simpl in Er.
    injection Er as <-. simpl. split; discriminate.
  - rewrite (get_assignment_absent _ _ H) in Er. simpl in Er.
    injection Er as <-. simpl. split; reflexivity.
Qed.

(** X22.  With [AssignmentResponse] supplied as the spec gives it (as
    [app.py] stands the name is not declared, and importing the module
    fails before any test runs), the four other tests pass from every
    state of the application, whatever ids and clock readings their
    requests are handed. *)
Theorem other_tests_pass (env1 env2 : Env.t) (uuid4 utcnow : string)
    (w : World.t) :
  test_root env1 w = true
  /\ test_health_check env1 utcnow w = true
  /\ (exists w' : World.t,
        test_submit_assignment env1 uuid4 utcnow w = (Some uuid4, w'))
  /\ test_list_assignments env1 uuid4 utcnow env2 w = true.
Proof.
  split; [reflexivity|]. split; [reflexivity|]. split.
  - destruct (test_submit_assignment_eq env1 uuid4 utcnow w) as [w' [E _]].
    now exists w'.
  - unfold test_list_assignments.
    destruct (test_submit_assignment_eq env1 uuid4 utcnow w) as [w1 [E _]].
    rewrite E.
    destruct (client_serve env2 (get_list None None) w1)
      as [resp [db' [w2 [Er [_ Ec]]]]].
    rewrite Ec. clear Ec. simpl in Er.
    unfold answer, on_store, GET_assignments, bind in Er.
    destruct (list_assignments_eq None None (World.store w1)) as [l El].
    rewrite El in Er. simpl in Er. injection Er as <- _. reflexivity.
Qed.

(** The constant written [1000] in the middleware is the number 1000. *)
Lemma float_1000_is_1000 :
  binary64 float_1000 = true
  /\ exists q : Q, float_value float_1000 = Some q /\ (q == 1000)%Q.
Proof. split; [reflexivity|]. eexists. split; reflexivity. Qed.
